(** * WanJoo: the capture-and-analyse workflow of the X2 Blocks overlay

    A shallow embedding of [src/services/geminiService.ts] and of the
    event handlers of [src/App.tsx], with the properties of the workflow
    stated over it.

    Conventions of the embedding:
    - a JavaScript string is a Rocq [string], the bytes of its UTF-8
      encoding;
    - a JavaScript number is an IEEE 754 binary64 value, [spec_float] at
      precision 53 and maximal exponent 1024;
    - a value that may be [null] or [undefined] is an [option], or the
      constructors [JNull] and [JUndefined] of [JsValue];
    - a function that may throw returns a [Completion];
    - React state is the record [AppState]; what the handlers do to the
      outside world (console, media devices, canvas, remote model,
      confetti) is appended to a trace of [Event]s. *)

From Stdlib Require Import Bool List String Ascii NArith ZArith Lia.
From Stdlib Require Import SpecFloat.
Import ListNotations.

Local Open Scope string_scope.
Local Open Scope bool_scope.

(** ** Characters and strings *)

Definition code (c : ascii) : N := N_of_ascii c.

Definition char_is (n : N) (c : ascii) : bool := N.eqb (code c) n.

Definition quote : ascii := ascii_of_N 34.
Definition backslash : ascii := ascii_of_N 92.

(** JSON texts are written below with an apostrophe where the text has a
    double quote; [dq] puts the double quotes back. *)
Fixpoint dq (s : string) : string :=
  match s with
  | EmptyString => EmptyString
  | String c r => String (if char_is 39 c then quote else c) (dq r)
  end.

(** [String.prototype.split] with a one-character separator. *)
Fixpoint split_from (sep : ascii) (cur : string) (s : string) : list string :=
  match s with
  | EmptyString => [cur]
  | String c r =>
      if Ascii.eqb c sep then cur :: split_from sep EmptyString r
      else split_from sep (cur ++ String c EmptyString) r
  end.

Definition split (sep : ascii) (s : string) : list string :=
  split_from sep EmptyString s.

Fixpoint contains (sep : ascii) (s : string) : bool :=
  match s with
  | EmptyString => false
  | String c r => Ascii.eqb c sep || contains sep r
  end.

(** [a || b] on strings: the empty string is falsy. *)
Definition or_else (a : option string) (b : string) : string :=
  match a with
  | Some (String c r) => String c r
  | _ => b
  end.

(** ** Numbers *)

Definition number : Type := spec_float.

Definition prec : Z := 53.
Definition emax : Z := 1024.

Definition NaN : number := S754_nan.

(** The binary64 value nearest to [digits * 10 ^ e10] (ties to even),
    negated when [neg]: the value of a decimal literal. *)
Definition number_of_decimal (neg : bool) (digits : N) (e10 : Z) : number :=
  match digits with
  | N0 => S754_zero neg
  | Npos m =>
      match e10 with
      | Zneg k =>
          let '(q, e, l) :=
            SFdiv_core_binary prec emax (Zpos m) 0 (Z.pow_pos 10 k) 0 in
          binary_round_aux prec emax neg q e l
      | _ =>
          match (Zpos m * 10 ^ e10)%Z with
          | Zpos p => binary_round prec emax neg p 0
          | _ => S754_zero neg
          end
      end
  end.

Definition number_of_N (n : N) : number := number_of_decimal false n 0.

(** [a < b] on numbers; false as soon as one of them is NaN. *)
Definition lessThan (a b : number) : bool := SFltb a b.
Definition lessEq (a b : number) : bool := SFleb a b.

(** ** Values *)

#[warnings="-register-all"]
Inductive JsValue : Type :=
| JUndefined
| JNull
| JBool (b : bool)
| JNumber (n : number)
| JString (s : string)
| JArray (elems : list JsValue)
| JObject (members : list (string * JsValue)).

(** What is thrown. [Error] is made by the program with its message;
    [SyntaxError] and [TypeError] are made by the engine, with a message
    of its own, and so is [NotPrimitive], the [TypeError] of an object
    that cannot be converted to a primitive value; [Rejection] is what a
    promise of the platform (media devices, remote client) is rejected
    with, an object whose message may be missing. *)
Inductive JsError : Type :=
| Error (msg : string)
| SyntaxError
| TypeError
| NotPrimitive
| Rejection (msg : option string).

Inductive Completion (A : Type) : Type :=
| Returned (a : A)
| Threw (e : JsError).
Arguments Returned {A} a.
Arguments Threw {A} e.

(** Own properties of an object made by [JSON.parse], in insertion order;
    defining a key again replaces its value. *)
Fixpoint define_property (k : string) (v : JsValue)
    (ms : list (string * JsValue)) : list (string * JsValue) :=
  match ms with
  | [] => [(k, v)]
  | (k', v') :: r =>
      if String.eqb k' k then (k, v) :: r
      else (k', v') :: define_property k v r
  end.

Fixpoint own_property (k : string) (ms : list (string * JsValue))
    : option JsValue :=
  match ms with
  | [] => None
  | (k', v) :: r => if String.eqb k' k then Some v else own_property k r
  end.

(** ** [JSON.parse]

    The built-in that [analyzeGameScreenshot] calls, after ECMA-262
    (25.5.1) and the grammar of ECMA-404: a lexer that reads the text one
    character at a time, then a pushdown recogniser over the tokens.
    [parse] is [None] where [JSON.parse] throws a [SyntaxError]. *)
Module JSON.

Inductive token : Type :=
| TLBrace | TRBrace | TLBracket | TRBracket | TColon | TComma
| TString (s : string)
| TNumber (n : number)
| TTrue | TFalse | TNull.

(** *** Character classes *)

Definition is_ws (c : ascii) : bool :=
  char_is 9 c || char_is 10 c || char_is 13 c || char_is 32 c.

Definition is_digit (c : ascii) : bool :=
  N.leb 48 (code c) && N.leb (code c) 57.

Definition is_lower (c : ascii) : bool :=
  N.leb 97 (code c) && N.leb (code c) 122.

(** The characters a number token is made of: digits, sign, point, e, E. *)
Definition is_numchar (c : ascii) : bool :=
  is_digit c || char_is 45 c || char_is 43 c || char_is 46 c
  || char_is 101 c || char_is 69 c.

Definition hex_value (c : ascii) : option N :=
  let n := code c in
  if N.leb 48 n && N.leb n 57 then Some (n - 48)%N
  else if N.leb 97 n && N.leb n 102 then Some (n - 87)%N
  else if N.leb 65 n && N.leb n 70 then Some (n - 55)%N
  else None.

(** *** String literals

    The body of a string literal is kept as a list of items: a byte of
    the text, or a UTF-16 code unit written as a [\uXXXX] escape. A high
    surrogate followed by a low one is one code point; [encode_items]
    writes each code point in UTF-8 (a lone surrogate in the same
    three-byte form). *)
Inductive sitem : Type :=
| SByte (c : ascii)
| SUnit (u : N).

Definition byte (n : N) : string := String (ascii_of_N n) EmptyString.

Definition utf8 (cp : N) : string :=
  if N.ltb cp 128 then byte cp
  else if N.ltb cp 2048 then
    byte (192 + cp / 64) ++ byte (128 + cp mod 64)
  else if N.ltb cp 65536 then
    byte (224 + cp / 4096) ++ byte (128 + (cp / 64) mod 64)
    ++ byte (128 + cp mod 64)
  else
    byte (240 + cp / 262144) ++ byte (128 + (cp / 4096) mod 64)
    ++ byte (128 + (cp / 64) mod 64) ++ byte (128 + cp mod 64).

Definition is_high (u : N) : bool := N.leb 55296 u && N.leb u 56319.
Definition is_low (u : N) : bool := N.leb 56320 u && N.leb u 57343.

Definition pair_code_point (h l : N) : N :=
  (65536 + (h - 55296) * 1024 + (l - 56320))%N.

Fixpoint encode_items (l : list sitem) : string :=
  match l with
  | [] => EmptyString
  | SByte c :: r => String c (encode_items r)
  | SUnit h :: r =>
      match r with
      | SUnit lo :: r' =>
          if is_high h && is_low lo
          then utf8 (pair_code_point h lo) ++ encode_items r'
          else utf8 h ++ encode_items r
      | _ => utf8 h ++ encode_items r
      end
  end.

(** The item a one-character escape stands for. *)
Definition escape_item (c : ascii) : option sitem :=
  let n := code c in
  if N.eqb n 34 || N.eqb n 92 || N.eqb n 47 then Some (SByte c)
  else if N.eqb n 98 then Some (SByte (ascii_of_N 8))
  else if N.eqb n 102 then Some (SByte (ascii_of_N 12))
  else if N.eqb n 110 then Some (SByte (ascii_of_N 10))
  else if N.eqb n 114 then Some (SByte (ascii_of_N 13))
  else if N.eqb n 116 then Some (SByte (ascii_of_N 9))
  else None.

(** *** Number literals *)

Fixpoint span_digits (s : string) : list ascii * string :=
  match s with
  | EmptyString => ([], EmptyString)
  | String c r =>
      if is_digit c then let (ds, rest) := span_digits r in (c :: ds, rest)
      else ([], s)
  end.

Definition digits_value (ds : list ascii) : N :=
  fold_left (fun acc c => (acc * 10 + (code c - 48))%N) ds 0%N.

(** [0], or digits that do not start with [0]. *)
Definition int_ok (ds : list ascii) : bool :=
  match ds with
  | [] => false
  | [_] => true
  | c :: _ => negb (char_is 48 c)
  end.

(** The exponent part: nothing, or [e] or [E], an optional sign and at
    least one digit, up to the end of the token. *)
Definition exponent (s : string) : option Z :=
  match s with
  | EmptyString => Some 0%Z
  | String c r =>
      if char_is 101 c || char_is 69 c then
        let '(neg, r1) :=
          match r with
          | String sg r' =>
              if char_is 45 sg then (true, r')
              else if char_is 43 sg then (false, r')
              else (false, r)
          | EmptyString => (false, r)
          end in
        match span_digits r1 with
        | ((_ :: _) as ds, EmptyString) =>
            let v := Z.of_N (digits_value ds) in
            Some (if neg then (- v)%Z else v)
        | _ => None
        end
      else None
  end.

Definition number_of_literal (s : string) : option number :=
  let '(neg, s1) :=
    match s with
    | String c r => if char_is 45 c then (true, r) else (false, s)
    | EmptyString => (false, s)
    end in
  let '(ip, s2) := span_digits s1 in
  if int_ok ip then
    let frac :=
      match s2 with
      | String c r =>
          if char_is 46 c then
            match span_digits r with
            | ((_ :: _) as fp, s3) => Some (fp, s3)
            | _ => None
            end
          else Some ([], s2)
      | EmptyString => Some ([], s2)
      end in
    match frac with
    | Some (fp, s3) =>
        match exponent s3 with
        | Some e =>
            Some (number_of_decimal neg (digits_value (ip ++ fp)%list)
                    (e - Z.of_nat (List.length fp)))
        | None => None
        end
    | None => None
    end
  else None.

(** *** The lexer *)

Inductive lex_mode : Type :=
| InDefault
| InWord (w : list ascii)
| InNumber (w : list ascii)
| InString (items : list sitem)
| InEscape (items : list sitem)
| InUnicode (items : list sitem) (read : nat) (acc : N).

(** Letters and number characters are gathered most recent first. *)
Definition word_token (w : list ascii) : option token :=
  let s := string_of_list_ascii (rev w) in
  if String.eqb s "true" then Some TTrue
  else if String.eqb s "false" then Some TFalse
  else if String.eqb s "null" then Some TNull
  else None.

Definition number_token (w : list ascii) : option token :=
  match number_of_literal (string_of_list_ascii (rev w)) with
  | Some n => Some (TNumber n)
  | None => None
  end.

(** A character read between two tokens. *)
Definition start_token (c : ascii) (toks : list token)
    : option (lex_mode * list token) :=
  if is_ws c then Some (InDefault, toks)
  else if char_is 123 c then Some (InDefault, TLBrace :: toks)
  else if char_is 125 c then Some (InDefault, TRBrace :: toks)
  else if char_is 91 c then Some (InDefault, TLBracket :: toks)
  else if char_is 93 c then Some (InDefault, TRBracket :: toks)
  else if char_is 58 c then Some (InDefault, TColon :: toks)
  else if char_is 44 c then Some (InDefault, TComma :: toks)
  else if char_is 34 c then Some (InString [], toks)
  else if char_is 45 c || is_digit c then Some (InNumber [c], toks)
  else if is_lower c then Some (InWord [c], toks)
  else None.

Definition lex_step (st : lex_mode * list token) (c : ascii)
    : option (lex_mode * list token) :=
  let '(mode, toks) := st in
  match mode with
  | InDefault => start_token c toks
  | InWord w =>
      if is_lower c then Some (InWord (c :: w), toks)
      else match word_token w with
           | Some t => start_token c (t :: toks)
           | None => None
           end
  | InNumber w =>
      if is_numchar c then Some (InNumber (c :: w), toks)
      else match number_token w with
           | Some t => start_token c (t :: toks)
           | None => None
           end
  | InString items =>
      if char_is 34 c
      then Some (InDefault, TString (encode_items (rev items)) :: toks)
      else if char_is 92 c then Some (InEscape items, toks)
      else if N.ltb (code c) 32 then None
      else Some (InString (SByte c :: items), toks)
  | InEscape items =>
      if char_is 117 c then Some (InUnicode items 0 0%N, toks)
      else match escape_item c with
           | Some i => Some (InString (i :: items), toks)
           | None => None
           end
  | InUnicode items read acc =>
      match hex_value c with
      | Some d =>
          let acc' := (acc * 16 + d)%N in
          if Nat.eqb read 3 then Some (InString (SUnit acc' :: items), toks)
          else Some (InUnicode items (S read) acc', toks)
      | None => None
      end
  end.

(** At the end of the text a word or a number ends; a string must have
    ended already. *)
Definition lex_end (st : lex_mode * list token) : option (list token) :=
  let '(mode, toks) := st in
  match mode with
  | InDefault => Some (rev toks)
  | InWord w =>
      match word_token w with
      | Some t => Some (rev (t :: toks))
      | None => None
      end
  | InNumber w =>
      match number_token w with
      | Some t => Some (rev (t :: toks))
      | None => None
      end
  | _ => None
  end.

Fixpoint lex_from (st : lex_mode * list token) (s : string)
    : option (list token) :=
  match s with
  | EmptyString => lex_end st
  | String c r =>
      match lex_step st c with
      | Some st' => lex_from st' r
      | None => None
      end
  end.

Definition lex (s : string) : option (list token) :=
  lex_from (InDefault, []) s.

(** *** The recogniser

    A [frame] is an array or an object that waits for the value being
    read; the stack of frames is the nesting at this point of the text. *)
Inductive frame : Type :=
| FArr (done : list JsValue)
| FObj (done : list (string * JsValue)) (key : string).

Inductive pstate : Type :=
| AwaitValue (stack : list frame)
| AfterOpenArr (stack : list frame)
| AfterOpenObj (stack : list frame)
| AwaitKey (done : list (string * JsValue)) (stack : list frame)
| AwaitColon (done : list (string * JsValue)) (key : string)
    (stack : list frame)
| InArr (done : list JsValue) (stack : list frame)
| InObj (done : list (string * JsValue)) (stack : list frame)
| Finished (v : JsValue).

(** A value is complete: it goes to the innermost frame, or is the
    result. The elements of an array are gathered most recent first. *)
Definition deliver (v : JsValue) (stack : list frame) : pstate :=
  match stack with
  | [] => Finished v
  | FArr done :: s => InArr (v :: done) s
  | FObj done k :: s => InObj (define_property k v done) s
  end.

Definition value_token (t : token) (stack : list frame) : option pstate :=
  match t with
  | TLBracket => Some (AfterOpenArr stack)
  | TLBrace => Some (AfterOpenObj stack)
  | TString s => Some (deliver (JString s) stack)
  | TNumber n => Some (deliver (JNumber n) stack)
  | TTrue => Some (deliver (JBool true) stack)
  | TFalse => Some (deliver (JBool false) stack)
  | TNull => Some (deliver JNull stack)
  | _ => None
  end.

Definition pstep (st : pstate) (t : token) : option pstate :=
  match st with
  | AwaitValue stack => value_token t stack
  | AfterOpenArr stack =>
      match t with
      | TRBracket => Some (deliver (JArray []) stack)
      | _ => value_token t (FArr [] :: stack)
      end
  | AfterOpenObj stack =>
      match t with
      | TRBrace => Some (deliver (JObject []) stack)
      | TString k => Some (AwaitColon [] k stack)
      | _ => None
      end
  | AwaitKey done stack =>
      match t with
      | TString k => Some (AwaitColon done k stack)
      | _ => None
      end
  | AwaitColon done k stack =>
      match t with
      | TColon => Some (AwaitValue (FObj done k :: stack))
      | _ => None
      end
  | InArr done stack =>
      match t with
      | TComma => Some (AwaitValue (FArr done :: stack))
      | TRBracket => Some (deliver (JArray (rev done)) stack)
      | _ => None
      end
  | InObj done stack =>
      match t with
      | TComma => Some (AwaitKey done stack)
      | TRBrace => Some (deliver (JObject done) stack)
      | _ => None
      end
  | Finished _ => None
  end.

Fixpoint run (st : pstate) (toks : list token) : option JsValue :=
  match toks with
  | [] => match st with Finished v => Some v | _ => None end
  | t :: r =>
      match pstep st t with
      | Some st' => run st' r
      | None => None
      end
  end.

Definition parse (text : string) : option JsValue :=
  match lex text with
  | Some toks => run (AwaitValue []) toks
  | None => None
  end.

End JSON.

(** ** The inference client: [src/services/geminiService.ts] *)

#[warnings="-register-all"]
Inductive Schema : Type :=
| SchemaObject (properties : list (string * Schema)) (required : list string)
| SchemaString
| SchemaNumber.

Record InlineData : Type := { mimeType : string; data : option string }.

Inductive Part : Type :=
| TextPart (text : string)
| InlineDataPart (inlineData : InlineData).

Record GenerateContentRequest : Type := {
  model : string;
  parts : list Part;
  responseMimeType : string;
  responseSchema : Schema
}.

(** The response of the remote model: its [text] may be undefined. *)
Record GenerateContentResponse : Type := { text : option string }.

(** [ai.models.generateContent], awaited: the response, or what the
    promise was rejected with. *)
Definition GenerateContent : Type :=
  GenerateContentRequest -> Completion GenerateContentResponse.

(** What the handlers do to the world outside the React state. *)
Definition Track : Type := nat.
Definition MediaStream : Type := list Track.

Inductive Event : Type :=
| ConsoleError (label : string) (err : JsError)
| CallGetDisplayMedia
| SetSrcObject (stream : MediaStream)
| Play
| SetTimeout (delay : N)
| DrawImage (width height : N)
| ToDataURL (type : string)
| CallGenerateContent (request : GenerateContentRequest)
| TrackStop (track : Track)
| Confetti.

Definition prompt : string := "
    Tu es un expert du jeu X2 Blocks. 
    Analyse cette capture d'écran du jeu.
    Identifie le bloc actuel en bas de l'écran et la grille de blocs au-dessus.
    Détermine le meilleur coup (la meilleure colonne où lâcher le bloc) pour maximiser les fusions et le score.
    
    Réponds au format JSON avec les champs suivants :
    - explanation: une courte explication en français de pourquoi c'est le meilleur coup.
    - column: le numéro de la colonne (de 1 à 5, généralement X2 Blocks a 5 colonnes).
    - confidence: ton niveau de confiance de 0 à 1.
  ".

Definition request (base64Image : string) : GenerateContentRequest :=
  {| model := "gemini-3-flash-preview";
     parts :=
       [ TextPart prompt;
         InlineDataPart
           {| mimeType := "image/png";
              data := nth_error (split "," base64Image) 1 |} ];
     responseMimeType := "application/json";
     responseSchema :=
       SchemaObject
         [ ("explanation", SchemaString);
           ("column", SchemaNumber);
           ("confidence", SchemaNumber) ]
         [ "explanation"; "column"; "confidence" ] |}.

Definition parse_failure : JsError :=
  Error "L'IA n'a pas pu analyser l'image correctement.".

(** The events of the call, in order, and how the promise settles. *)
Definition analyzeGameScreenshot (generateContent : GenerateContent)
    (base64Image : string) : list Event * Completion JsValue :=
  let req := request base64Image in
  match generateContent req with
  | Threw e => ([CallGenerateContent req], Threw e)
  | Returned response =>
      match JSON.parse (or_else (text response) "{}") with
      | Some result => ([CallGenerateContent req], Returned result)
      | None =>
          ([CallGenerateContent req;
            ConsoleError "Failed to parse Gemini response:" SyntaxError],
           Threw parse_failure)
      end
  end.

(** ** The capture controller and the user interface: [src/App.tsx] *)

(** *** What the browser provides *)

(** [getDisplayMedia], called with the constraints of [startCapture] and
    awaited: the stream the user picked, or what was thrown (the user
    dismissed the prompt, or the call failed). *)
Definition GetDisplayMedia : Type := Completion MediaStream.

Record MediaDevices : Type := { getDisplayMedia : option GetDisplayMedia }.

Record Navigator : Type := {
  mediaDevices : option MediaDevices;
  legacy_getDisplayMedia : option GetDisplayMedia   (* nav.getDisplayMedia *)
}.

Record Video : Type := { videoWidth : N; videoHeight : N }.

(** [getContext2d] tells whether [getContext('2d')] gives a context;
    [toDataURL] is the data URI the canvas encodes its content to. *)
Record Canvas : Type := { getContext2d : bool; toDataURL : string }.

(** The conversions of the engine that the program relies on without
    implementing them: [StringToNumber] (ECMA-262 7.1.4.1.1) and
    [NumberToString] (6.1.6.1.20, radix 10), and the messages the engine
    gives to its own errors: [SyntaxError], the [TypeError] of reading a
    property of [null], and the [TypeError] of an object that cannot be
    converted to a primitive value. *)
Record Platform : Type := {
  StringToNumber : string -> number;
  NumberToString : number -> string;
  syntaxErrorMessage : string;
  typeErrorMessage : string;
  notPrimitiveMessage : string
}.

Record Env : Type := {
  navigator : Navigator;
  videoRef : option Video;      (* videoRef.current *)
  canvasRef : option Canvas;    (* canvasRef.current *)
  generateContent : GenerateContent;
  platform : Platform
}.

(** *** The state *)

Record AppState : Type := {
  screenshot : option string;
  suggestion : JsValue;         (* MoveSuggestion | null *)
  loading : bool;
  error : option string;
  showResult : bool
}.

Definition initialState : AppState :=
  {| screenshot := None; suggestion := JNull; loading := false;
     error := None; showResult := false |}.

(** [onloadedmetadata] is the handler set on the video element, with the
    stream it closes over; [metadataPending] holds from the moment the
    video element is given a source until it reports the metadata of that
    source. *)
Record World : Type := {
  ui : AppState;
  onloadedmetadata : option MediaStream;
  metadataPending : bool;
  trace : list Event
}.

Definition initialWorld : World :=
  {| ui := initialState; onloadedmetadata := None;
     metadataPending := false; trace := [] |}.

Definition with_ui (f : AppState -> AppState) (w : World) : World :=
  {| ui := f (ui w); onloadedmetadata := onloadedmetadata w;
     metadataPending := metadataPending w; trace := trace w |}.

Definition setScreenshot (v : option string) : World -> World :=
  with_ui (fun s =>
    {| screenshot := v; suggestion := suggestion s; loading := loading s;
       error := error s; showResult := showResult s |}).

Definition setSuggestion (v : JsValue) : World -> World :=
  with_ui (fun s =>
    {| screenshot := screenshot s; suggestion := v; loading := loading s;
       error := error s; showResult := showResult s |}).

Definition setLoading (v : bool) : World -> World :=
  with_ui (fun s =>
    {| screenshot := screenshot s; suggestion := suggestion s; loading := v;
       error := error s; showResult := showResult s |}).

Definition setError (v : option string) : World -> World :=
  with_ui (fun s =>
    {| screenshot := screenshot s; suggestion := suggestion s;
       loading := loading s; error := v; showResult := showResult s |}).

Definition setShowResult (v : bool) : World -> World :=
  with_ui (fun s =>
    {| screenshot := screenshot s; suggestion := suggestion s;
       loading := loading s; error := error s; showResult := v |}).

Definition emit (evs : list Event) (w : World) : World :=
  {| ui := ui w; onloadedmetadata := onloadedmetadata w;
     metadataPending := metadataPending w;
     trace := (trace w ++ evs)%list |}.

(** [videoRef.current.srcObject = stream] *)
Definition setSrcObject (stream : MediaStream) (w : World) : World :=
  {| ui := ui w; onloadedmetadata := onloadedmetadata w;
     metadataPending := true;
     trace := (trace w ++ [SetSrcObject stream])%list |}.

(** [videoRef.current.onloadedmetadata = () => ...] *)
Definition setOnloadedmetadata (stream : MediaStream) (w : World) : World :=
  {| ui := ui w; onloadedmetadata := Some stream;
     metadataPending := metadataPending w; trace := trace w |}.

Definition metadataReported (w : World) : World :=
  {| ui := ui w; onloadedmetadata := onloadedmetadata w;
     metadataPending := false; trace := trace w |}.

(** The trigger button is rendered with [disabled={loading}]. *)
Definition triggerEnabled (s : AppState) : bool := negb (loading s).

(** *** Coercions and comparison *)

Definition message (p : Platform) (e : JsError) : option string :=
  match e with
  | Error msg => Some msg
  | SyntaxError => Some (syntaxErrorMessage p)
  | TypeError => Some (typeErrorMessage p)
  | NotPrimitive => Some (notPrimitiveMessage p)
  | Rejection msg => msg
  end.

(** [ToString] (7.1.17) on a value of [JSON.parse]. An object goes
    through [ToPrimitive]: the methods looked up are [toString] and
    [valueOf]. The inherited [valueOf] returns the object itself, and an
    own property of either name, coming from [JSON.parse], cannot be
    called and is skipped; so an object with an own [toString] has no
    primitive value and a [TypeError] is thrown, and any other object
    gives the text of [Object.prototype.toString]. An array gives its
    elements joined by commas ([Array.prototype.join]), [null] and
    [undefined] counting as empty; the first element that throws makes
    the whole conversion throw. *)
Fixpoint ToString (p : Platform) (v : JsValue) : Completion string :=
  match v with
  | JUndefined => Returned "undefined"
  | JNull => Returned "null"
  | JBool b => Returned (if b then "true" else "false")
  | JNumber n => Returned (NumberToString p n)
  | JString s => Returned s
  | JObject members =>
      match own_property "toString" members with
      | Some _ => Threw NotPrimitive
      | None => Returned "[object Object]"
      end
  | JArray elems =>
      (fix join (first : bool) (l : list JsValue) : Completion string :=
         match l with
         | [] => Returned EmptyString
         | x :: r =>
             let element :=
               match x with
               | JUndefined | JNull => Returned EmptyString
               | _ => ToString p x
               end in
             match element with
             | Threw e => Threw e
             | Returned sx =>
                 match join false r with
                 | Threw e => Threw e
                 | Returned sr =>
                     Returned ((if first then EmptyString else ",")
                               ++ sx ++ sr)
                 end
             end
         end) true elems
  end.

(** [ToNumber] (7.1.4): an array or an object is converted to a
    primitive value first, with the hint [number]; the inherited
    [valueOf] gives no primitive, so the value is the one of [toString],
    as in [ToString]. *)
Definition ToNumber (p : Platform) (v : JsValue) : Completion number :=
  match v with
  | JUndefined => Returned NaN
  | JNull => Returned (S754_zero false)
  | JBool b => Returned (if b then number_of_N 1 else S754_zero false)
  | JNumber n => Returned n
  | JString s => Returned (StringToNumber p s)
  | JArray _ | JObject _ =>
      match ToString p v with
      | Returned s => Returned (StringToNumber p s)
      | Threw e => Threw e
      end
  end.

(** [v > n], which throws when the conversion of [v] does. *)
Definition greaterThan (p : Platform) (v : JsValue) (n : number)
    : Completion bool :=
  match ToNumber p v with
  | Returned x => Returned (lessThan n x)
  | Threw e => Threw e
  end.

(** [result.confidence]: reading the property throws on [null]; a value
    that is not an object of [JSON.parse] has no such property. *)
Definition confidence (result : JsValue) : Completion JsValue :=
  match result with
  | JNull | JUndefined => Threw TypeError
  | JObject members =>
      match own_property "confidence" members with
      | Some v => Returned v
      | None => Returned JUndefined
      end
  | _ => Returned JUndefined
  end.

Definition threshold : number := number_of_decimal false 8 (-1).

(** *** The handlers *)

Definition unsupported_message : string :=
  "La capture d'écran n'est pas supportée par ce navigateur ou dans ce contexte (Iframe/Mobile).".

Definition cancelled_message : string := "Capture annulée.".

(** [!mediaDevices || !mediaDevices.getDisplayMedia], then
    [!nav.getDisplayMedia]. *)
Definition capability_absent (nav : Navigator) : bool :=
  match mediaDevices nav with
  | Some md =>
      match getDisplayMedia md with
      | Some _ => false
      | None =>
          match legacy_getDisplayMedia nav with
          | Some _ => false
          | None => true
          end
      end
  | None =>
      match legacy_getDisplayMedia nav with
      | Some _ => false
      | None => true
      end
  end.

(** [mediaDevices?.getDisplayMedia?.bind(mediaDevices) ||
    nav.getDisplayMedia?.bind(nav)] *)
Definition pick_getDisplayMedia (nav : Navigator) : option GetDisplayMedia :=
  match mediaDevices nav with
  | Some md =>
      match getDisplayMedia md with
      | Some f => Some f
      | None => legacy_getDisplayMedia nav
      end
  | None => legacy_getDisplayMedia nav
  end.

(** The [catch] block of [startCapture]: the error goes to the console
    only. *)
Definition startCapture_catch (err : JsError) (w : World) : World :=
  let w := emit [ConsoleError "Error starting capture:" err] w in
  let w := setError (Some cancelled_message) w in
  setLoading false w.

Definition startCapture (env : Env) (w : World) : World :=
  let w := setError None w in
  let nav := navigator env in
  if capability_absent nav
  then startCapture_catch (Error unsupported_message) w
  else
    let w := setLoading true w in
    match pick_getDisplayMedia nav with
    | None => startCapture_catch TypeError w
    | Some call =>
        let w := emit [CallGetDisplayMedia] w in
        match call with
        | Threw err => startCapture_catch err w
        | Returned stream =>
            match videoRef env with
            | Some _ =>
                let w := setSrcObject stream w in
                let w := emit [Play] w in
                setOnloadedmetadata stream w
            | None => w
            end
        end
    end.

(** The [catch] block of [analyzeImage]:
    [setError(err.message || default)]. *)
Definition analyzeImage_catch (p : Platform) (err : JsError) (w : World)
    : World :=
  setError (Some (or_else (message p err) "Erreur d'analyse.")) w.

Definition analyzeImage (env : Env) (dataUrl : string) (w : World) : World :=
  let '(evs, outcome) := analyzeGameScreenshot (generateContent env) dataUrl in
  let w := emit evs w in
  let w :=
    match outcome with
    | Returned result =>
        let w := setSuggestion result w in
        let w := setShowResult true w in
        match confidence result with
        | Returned c =>
            match greaterThan (platform env) c threshold with
            | Returned true => emit [Confetti] w
            | Returned false => w
            | Threw err => analyzeImage_catch (platform env) err w
            end
        | Threw err => analyzeImage_catch (platform env) err w
        end
    | Threw err => analyzeImage_catch (platform env) err w
    end in
  setLoading false w.

(** [stream.getTracks().forEach(track => track.stop())] *)
Definition stopTracks (stream : MediaStream) (w : World) : World :=
  emit (map TrackStop stream) w.

(** [analyzeImage] is called and not awaited: in the browser its request
    leaves before the tracks are stopped and its answer is handled after;
    here its events come first, in the order of the calls in the text. *)
Definition takeScreenshot (env : Env) (stream : MediaStream) (w : World)
    : World :=
  match videoRef env, canvasRef env with
  | Some video, Some canvas =>
      let w :=
        if getContext2d canvas then
          let w :=
            emit [DrawImage (videoWidth video) (videoHeight video);
                  ToDataURL "image/png"] w in
          let dataUrl := toDataURL canvas in
          let w := setScreenshot (Some dataUrl) w in
          analyzeImage env dataUrl w
        else w in
      stopTracks stream w
  | _, _ => w
  end.

(** The video element reports the metadata of its source, if it was
    given one: the handler set by [startCapture] arms the timer, and the
    timer takes the screenshot. *)
Definition loadedmetadata (env : Env) (w : World) : World :=
  if metadataPending w then
    let w := metadataReported w in
    match onloadedmetadata w with
    | Some stream => takeScreenshot env stream (emit [SetTimeout 500] w)
    | None => w
    end
  else w.

(** One click on the trigger, followed to the end. *)
Definition workflow (env : Env) (w : World) : World :=
  loadedmetadata env (startCapture env w).

Definition closeResult (w : World) : World :=
  let w := setShowResult false w in
  let w := setSuggestion JNull w in
  setScreenshot None w.

(** The stream [startCapture] gets hold of, if any: none when the
    capability is absent, when there is nothing to call, or when the call
    throws. *)
Definition acquired_stream (nav : Navigator) : option MediaStream :=
  if capability_absent nav then None
  else match pick_getDisplayMedia nav with
       | Some (Returned stream) => Some stream
       | _ => None
       end.

(** *** Reading a trace *)

Definition is_stop_of (t : Track) (e : Event) : bool :=
  match e with
  | TrackStop t' => Nat.eqb t t'
  | _ => false
  end.

(** How many times [track.stop()] was called on [t]. *)
Definition stops (t : Track) (tr : list Event) : nat :=
  List.length (filter (is_stop_of t) tr).

Definition is_remote_call (e : Event) : bool :=
  match e with
  | CallGenerateContent _ => true
  | _ => false
  end.

Definition is_capture_call (e : Event) : bool :=
  match e with
  | CallGetDisplayMedia => true
  | _ => false
  end.

Definition is_timer (e : Event) : bool :=
  match e with
  | SetTimeout _ => true
  | _ => false
  end.

Definition is_confetti (e : Event) : bool :=
  match e with
  | Confetti => true
  | _ => false
  end.

(** *** What a well-formed suggestion is

    [MoveSuggestion] as the interface declares it, with the ranges the
    prompt asks for: an explanation, a column that is a positive integer
    and a confidence between 0 and 1. *)
Definition is_positive_integer (n : number) : bool :=
  match n with
  | S754_finite false m e =>
      if Z.leb 0 e then true
      else Z.eqb (Zpos m mod 2 ^ (- e)) 0
  | _ => false
  end.

Definition in_unit_interval (n : number) : bool :=
  lessEq (S754_zero false) n && lessEq n (number_of_N 1).

Definition has_string (k : string) (ms : list (string * JsValue)) : bool :=
  match own_property k ms with
  | Some (JString _) => true
  | _ => false
  end.

Definition has_number (ok : number -> bool) (k : string)
    (ms : list (string * JsValue)) : bool :=
  match own_property k ms with
  | Some (JNumber n) => ok n
  | _ => false
  end.

Definition well_formed_suggestion (v : JsValue) : bool :=
  match v with
  | JObject ms =>
      has_string "explanation" ms
      && has_number is_positive_integer "column" ms
      && has_number in_unit_interval "confidence" ms
  | _ => false
  end.

(** A result that lacks one of the three fields. *)
Definition partially_populated (v : JsValue) : bool :=
  match v with
  | JObject ms =>
      match own_property "explanation" ms, own_property "column" ms,
            own_property "confidence" ms with
      | Some _, Some _, Some _ => false
      | _, _, _ => true
      end
  | _ => true
  end.

(** *** Sample inputs *)

Definition sample_image : string := "data:image/png;base64,iVBORw0KGgo=".

(** A remote model that answers every request with the text [t]. *)
Definition answering (t : option string) : GenerateContent :=
  fun _ => Returned {| text := t |}.

(** An engine whose conversions between strings and numbers are left
    trivial: the inputs below reach none of them. *)
Definition sample_platform : Platform :=
  {| StringToNumber := fun _ => NaN;
     NumberToString := fun _ => EmptyString;
     syntaxErrorMessage := "Unexpected token";
     typeErrorMessage := "Cannot read properties of null";
     notPrimitiveMessage := "Cannot convert object to primitive value" |}.

Definition sample_video : Video := {| videoWidth := 1280; videoHeight := 720 |}.

Definition sample_canvas : Canvas :=
  {| getContext2d := true; toDataURL := sample_image |}.

Definition sample_suggestion_text : string :=
  dq "{'explanation':'col 3 best','column':3,'confidence':0.92}".

Definition sample_suggestion : JsValue :=
  JObject
    [ ("explanation", JString "col 3 best");
      ("column", JNumber (number_of_N 3));
      ("confidence", JNumber (number_of_decimal false 92 (-2))) ].

(** No way to capture: neither [navigator.mediaDevices] nor
    [navigator.getDisplayMedia]. *)
Definition no_capture : Navigator :=
  {| mediaDevices := None; legacy_getDisplayMedia := None |}.

(** The user dismisses the permission prompt. *)
Definition prompt_dismissed : Navigator :=
  {| mediaDevices :=
       Some {| getDisplayMedia :=
                 Some (Threw (Rejection (Some "Permission denied"))) |};
     legacy_getDisplayMedia := None |}.

(** The user picks a window whose stream has one video track. *)
Definition window_picked : Navigator :=
  {| mediaDevices := Some {| getDisplayMedia := Some (Returned [0%nat]) |};
     legacy_getDisplayMedia := None |}.

Definition plain_text : string := "iVBORw0KGgo=".

Definition browser (nav : Navigator) (video : option Video)
    (canvas : option Canvas) : Env :=
  {| navigator := nav; videoRef := video; canvasRef := canvas;
     generateContent := answering (Some sample_suggestion_text);
     platform := sample_platform |}.

(** *** What is rendered

    The conditions under which the parts of the page are mounted, as the
    JSX of [App] writes them. *)

(** [ToBoolean] *)
Definition truthy (v : JsValue) : bool :=
  match v with
  | JUndefined | JNull => false
  | JBool b => b
  | JNumber (S754_zero _) | JNumber S754_nan => false
  | JNumber _ => true
  | JString EmptyString => false
  | JString _ => true
  | JArray _ | JObject _ => true
  end.

(** [{showResult && (...)}] *)
Definition overlayMounted (s : AppState) : bool := showResult s.

(** [{suggestion && (...)}], inside the overlay. *)
Definition cardMounted (s : AppState) : bool :=
  showResult s && truthy (suggestion s).

(** [{!loading && !showResult && (...)}] *)
Definition pulseMounted (s : AppState) : bool :=
  negb (loading s) && negb (showResult s).

(** [{error && (...)}]: the text of the toast, if it is mounted. *)
Definition toastMounted (s : AppState) : option string :=
  match error s with
  | Some (String c r) => Some (String c r)
  | _ => None
  end.

(** *** More sample inputs *)

(** A canvas that gives no 2d context. *)
Definition blind_canvas : Canvas :=
  {| getContext2d := false; toDataURL := sample_image |}.

(** Only the older [navigator.getDisplayMedia] is there; the stream has
    two tracks. *)
Definition legacy_only : Navigator :=
  {| mediaDevices := Some {| getDisplayMedia := None |};
     legacy_getDisplayMedia := Some (Returned [0%nat; 1%nat]) |}.

(** A remote model that rejects every request. *)
Definition refusing (msg : option string) : GenerateContent :=
  fun _ => Threw (Rejection msg).

Definition browser_with (gc : GenerateContent) (nav : Navigator)
    (video : option Video) (canvas : option Canvas) : Env :=
  {| navigator := nav; videoRef := video; canvasRef := canvas;
     generateContent := gc; platform := sample_platform |}.

(** A state in which a result is shown and an error is pending. *)
Definition showing_result : World :=
  {| ui := {| screenshot := Some sample_image;
              suggestion := sample_suggestion;
              loading := false;
              error := Some "Erreur d'analyse.";
              showResult := true |};
     onloadedmetadata := Some [0%nat];
     metadataPending := false;
     trace := [] |}.

(** * Properties *)

(** ** Strings and the parser *)

Lemma or_else_nonempty (t d : string) :
  t <> EmptyString -> or_else (Some t) d = t.
Proof.
  destruct t as [|c r]; [congruence | reflexivity].
Qed.

Lemma or_else_missing (t : option string) (d : string) :
  t = None \/ t = Some EmptyString -> or_else t d = d.
Proof.
  intros [-> | ->]; reflexivity.
Qed.

Lemma parse_empty_object : JSON.parse "{}" = Some (JObject []).
Proof. reflexivity. Qed.

Lemma parse_not_json : JSON.parse "not json" = None.
Proof. reflexivity. Qed.

Lemma parse_sample_suggestion :
  JSON.parse sample_suggestion_text = Some sample_suggestion.
Proof. vm_compute. reflexivity. Qed.

(** The grammar at work: texts that are JSON, and texts that are not. *)
Example parse_accepts :
  JSON.parse " [ ] " = Some (JArray [])
  /\ JSON.parse "null" = Some JNull
  /\ JSON.parse "-0" = Some (JNumber (S754_zero true))
  /\ JSON.parse "1E+2" = Some (JNumber (number_of_N 100))
  /\ JSON.parse "[1,[2.5,{}],true]"
     = Some (JArray [JNumber (number_of_N 1);
                     JArray [JNumber (number_of_decimal false 25 (-1));
                             JObject []];
                     JBool true])
  /\ JSON.parse (dq "{'a':1,'b':'x','a':null}")
     = Some (JObject [("a", JNull); ("b", JString "x")]).
Proof. repeat split; vm_compute; reflexivity. Qed.

Example parse_rejects :
  map JSON.parse
    [ EmptyString; " "; "tru"; "True"; "01"; "1."; ".5"; "+1"; "1e"; "-";
      "[1,]"; "[,1]"; "[1 2]"; "[1"; "]"; "{},"; "1 2"; "nulltrue";
      "{a:1}"; dq "{'a':1,}"; dq "{'a' 1}"; dq "{'a'}"; dq "'abc";
      "undefined"; "NaN"; "'x'" ]
  = repeat None 26.
Proof. vm_compute. reflexivity. Qed.

Lemma append_assoc_char (cur : string) (c : ascii) (r : string) :
  (cur ++ String c EmptyString) ++ r = cur ++ String c r.
Proof.
  induction cur as [|a cur IH]; simpl; [reflexivity | now rewrite IH].
Qed.

Lemma append_empty (s : string) : s ++ EmptyString = s.
Proof.
  induction s as [|a s IH]; simpl; [reflexivity | now rewrite IH].
Qed.

(** A string without the separator is not cut. *)
Lemma split_from_no_separator (sep : ascii) (s cur : string) :
  contains sep s = false -> split_from sep cur s = [cur ++ s].
Proof.
  revert cur. induction s as [|c r IH]; intros cur H; simpl in *.
  - now rewrite append_empty.
  - apply orb_false_iff in H as [Hc Hr]. rewrite Hc.
    rewrite (IH _ Hr). now rewrite append_assoc_char.
Qed.

Lemma split_no_separator (sep : ascii) (s : string) :
  contains sep s = false -> split sep s = [s].
Proof.
  intros H. unfold split. now rewrite (split_from_no_separator sep s _ H).
Qed.

(** ** The inference client *)

(** What [analyzeGameScreenshot] does once the remote model has answered:
    it parses the text, or "{}" when there is none. *)
Lemma analyzeGameScreenshot_answered (gc : GenerateContent) (img : string)
    (resp : GenerateContentResponse) :
  gc (request img) = Returned resp ->
  snd (analyzeGameScreenshot gc img) =
    match JSON.parse (or_else (text resp) "{}") with
    | Some v => Returned v
    | None => Threw parse_failure
    end.
Proof.
  intros H. unfold analyzeGameScreenshot. rewrite H.
  destruct (JSON.parse (or_else (text resp) "{}")); reflexivity.
Qed.

Lemma analyzeGameScreenshot_rejected (gc : GenerateContent) (img : string)
    (e : JsError) :
  gc (request img) = Threw e ->
  analyzeGameScreenshot gc img = ([CallGenerateContent (request img)], Threw e).
Proof.
  intros H. unfold analyzeGameScreenshot. now rewrite H.
Qed.

(** The request is sent first, whatever follows. *)
Lemma analyzeGameScreenshot_sends (gc : GenerateContent) (img : string) :
  hd_error (fst (analyzeGameScreenshot gc img))
  = Some (CallGenerateContent (request img)).
Proof.
  unfold analyzeGameScreenshot.
  destruct (gc (request img)) as [resp|e]; [|reflexivity].
  destruct (JSON.parse (or_else (text resp) "{}")); reflexivity.
Qed.

(** C1, as stated, fails: a response whose text is empty, or absent, is
    not rejected; the empty object comes back. So does a text that is
    valid JSON of another shape. *)
Lemma missing_text_is_not_rejected :
  snd (analyzeGameScreenshot (answering (Some EmptyString)) sample_image)
    = Returned (JObject [])
  /\ snd (analyzeGameScreenshot (answering None) sample_image)
    = Returned (JObject [])
  /\ snd (analyzeGameScreenshot (answering (Some "[true]")) sample_image)
    = Returned (JArray [JBool true])
  /\ snd (analyzeGameScreenshot (answering (Some EmptyString)) sample_image)
    <> Threw parse_failure.
Proof.
  repeat split; try reflexivity. discriminate.
Qed.

(** C1 (amended): when the remote model answers with a text that is
    present, is not empty and is not JSON, [analyzeGameScreenshot] logs
    the failure and throws the error that says the analysis could not be
    read, with no result. A text that is missing, empty or absent, is read
    as "{}" and the empty object is returned; a text that is JSON is
    returned as parsed, whatever its shape. *)
Theorem analyzeGameScreenshot_parse_guard (gc : GenerateContent)
    (img : string) (resp : GenerateContentResponse) :
  gc (request img) = Returned resp ->
  (forall t, text resp = Some t -> t <> EmptyString -> JSON.parse t = None ->
     analyzeGameScreenshot gc img =
       ([CallGenerateContent (request img);
         ConsoleError "Failed to parse Gemini response:" SyntaxError],
        Threw parse_failure))
  /\ (text resp = None \/ text resp = Some EmptyString ->
      snd (analyzeGameScreenshot gc img) = Returned (JObject []))
  /\ (forall t v, text resp = Some t -> t <> EmptyString ->
      JSON.parse t = Some v ->
      snd (analyzeGameScreenshot gc img) = Returned v).
Proof.
  intros Hgc. repeat split.
  - intros t Ht Hne Hparse. unfold analyzeGameScreenshot.
    rewrite Hgc, Ht, (or_else_nonempty _ _ Hne), Hparse. reflexivity.
  - intros Hmiss. rewrite (analyzeGameScreenshot_answered _ _ _ Hgc).
    now rewrite (or_else_missing _ _ Hmiss), parse_empty_object.
  - intros t v Ht Hne Hparse.
    rewrite (analyzeGameScreenshot_answered _ _ _ Hgc).
    now rewrite Ht, (or_else_nonempty _ _ Hne), Hparse.
Qed.

Lemma analyzeGameScreenshot_parse_guard_witness :
  analyzeGameScreenshot (answering (Some "not json")) sample_image =
    ([CallGenerateContent (request sample_image);
      ConsoleError "Failed to parse Gemini response:" SyntaxError],
     Threw parse_failure).
Proof.
  refine (proj1 (analyzeGameScreenshot_parse_guard
                   (answering (Some "not json")) sample_image
                   {| text := Some "not json" |} eq_refl)
            "not json" eq_refl _ eq_refl).
  discriminate.
Defined.

(** C2, as stated, fails: the answer [{'column':0.5}] (with double
    quotes) comes back as it is, an object with neither explanation nor
    confidence and a column that is not a positive integer; and an answer
    with the three fields comes back with a confidence of 7 and a column
    of -2. *)
Lemma partial_suggestion_is_returned :
  (exists v,
     snd (analyzeGameScreenshot (answering (Some (dq "{'column':0.5}")))
            sample_image) = Returned v
     /\ partially_populated v = true
     /\ well_formed_suggestion v = false)
  /\ (exists v,
     snd (analyzeGameScreenshot
            (answering
               (Some (dq "{'explanation':'x','column':-2,'confidence':7}")))
            sample_image) = Returned v
     /\ partially_populated v = false
     /\ well_formed_suggestion v = false).
Proof.
  split; eexists; (split; [vm_compute; reflexivity|]);
    split; vm_compute; reflexivity.
Qed.

(** C2 (amended): for every image, [analyzeGameScreenshot] returns
    exactly the value that the text of the answer parses to ("{}" when
    the text is missing), or throws the parse error when that text is not
    JSON, or throws what the remote call was rejected with. Nothing is
    added to, removed from or checked in the value: it is a well-formed
    suggestion exactly when the text of the answer describes one. *)
Theorem analyzeGameScreenshot_returns_parsed_text (gc : GenerateContent)
    (img : string) :
  match gc (request img) with
  | Returned resp =>
      match JSON.parse (or_else (text resp) "{}") with
      | Some v =>
          snd (analyzeGameScreenshot gc img) = Returned v
      | None =>
          snd (analyzeGameScreenshot gc img) = Threw parse_failure
      end
  | Threw e => snd (analyzeGameScreenshot gc img) = Threw e
  end.
Proof.
  destruct (gc (request img)) as [resp|e] eqn:Hgc.
  - rewrite (analyzeGameScreenshot_answered _ _ _ Hgc).
    destruct (JSON.parse (or_else (text resp) "{}")); reflexivity.
  - now rewrite (analyzeGameScreenshot_rejected _ _ _ Hgc).
Qed.

(** C10: an image string with no comma is not cut by [split], so the
    element of index 1 is undefined: the request carries no image data,
    it is sent all the same, and the call succeeds as soon as the remote
    model answers with JSON; nothing is validated and nothing is thrown
    on this side. *)
Theorem analyzeGameScreenshot_no_comma (gc : GenerateContent) (s : string) :
  contains "," s = false ->
  parts (request s) =
    [TextPart prompt;
     InlineDataPart {| mimeType := "image/png"; data := None |}]
  /\ hd_error (fst (analyzeGameScreenshot gc s))
     = Some (CallGenerateContent (request s))
  /\ (forall resp v,
        gc (request s) = Returned resp ->
        JSON.parse (or_else (text resp) "{}") = Some v ->
        analyzeGameScreenshot gc s
        = ([CallGenerateContent (request s)], Returned v)).
Proof.
  intros H. repeat split.
  - unfold request. simpl parts.
    now rewrite (split_no_separator _ _ H).
  - apply analyzeGameScreenshot_sends.
  - intros resp v Hgc Hparse. unfold analyzeGameScreenshot.
    now rewrite Hgc, Hparse.
Qed.

Lemma analyzeGameScreenshot_no_comma_witness :
  parts (request plain_text) =
    [TextPart prompt;
     InlineDataPart {| mimeType := "image/png"; data := None |}]
  /\ analyzeGameScreenshot (answering (Some sample_suggestion_text)) plain_text
     = ([CallGenerateContent (request plain_text)], Returned sample_suggestion).
Proof.
  pose proof (analyzeGameScreenshot_no_comma
                (answering (Some sample_suggestion_text)) plain_text eq_refl)
    as [Hparts [_ Hok]].
  split; [exact Hparts|].
  exact (Hok {| text := Some sample_suggestion_text |} sample_suggestion
           eq_refl parse_sample_suggestion).
Defined.

(** ** The handlers *)

Lemma filter_app_nil {A : Type} (f : A -> bool) (l evs : list A) :
  filter f evs = [] -> filter f (l ++ evs)%list = filter f l.
Proof.
  intros H. now rewrite filter_app, H, app_nil_r.
Qed.

Lemma stops_app (t : Track) (a b : list Event) :
  stops t (a ++ b)%list = stops t a + stops t b.
Proof.
  unfold stops. now rewrite filter_app, length_app.
Qed.

(** The [catch] block of [startCapture] treats every error alike. *)
Lemma startCapture_catch_state (err : JsError) (w : World) :
  ui (startCapture_catch err w) =
    {| screenshot := screenshot (ui w); suggestion := suggestion (ui w);
       loading := false; error := Some cancelled_message;
       showResult := showResult (ui w) |}
  /\ onloadedmetadata (startCapture_catch err w) = onloadedmetadata w
  /\ metadataPending (startCapture_catch err w) = metadataPending w
  /\ trace (startCapture_catch err w)
     = (trace w ++ [ConsoleError "Error starting capture:" err])%list.
Proof. repeat split. Qed.

(** Without the capability, [startCapture] goes straight to its [catch]
    block. *)
Lemma startCapture_unsupported (env : Env) (w : World) :
  capability_absent (navigator env) = true ->
  startCapture env w
  = startCapture_catch (Error unsupported_message) (setError None w).
Proof.
  intros H. unfold startCapture. now rewrite H.
Qed.

(** If the video element was given no source, nothing follows the
    click. *)
Lemma workflow_without_source (env : Env) (w : World) :
  metadataPending (startCapture env w) = false ->
  workflow env w = startCapture env w.
Proof.
  intros H. unfold workflow, loadedmetadata. now rewrite H.
Qed.

(** C6: when the capability is absent, [startCapture] fails: the error
    message is set, and one line goes to the console. Nothing else is
    added to the trace: no call to the remote model, which every call of
    [analyzeGameScreenshot] starts with, and no call to
    [getDisplayMedia]; no handler is set and the video element is given
    no source, so that nothing calls [analyzeGameScreenshot] later
    either. *)
Theorem startCapture_unsupported_no_inference (env : Env) (w : World) :
  capability_absent (navigator env) = true ->
  error (ui (startCapture env w)) = Some cancelled_message
  /\ trace (startCapture env w)
  = (trace w
     ++ [ConsoleError "Error starting capture:" (Error unsupported_message)])%list
  /\ filter is_remote_call (trace (startCapture env w))
     = filter is_remote_call (trace w)
  /\ onloadedmetadata (startCapture env w) = onloadedmetadata w
  /\ metadataPending (startCapture env w) = metadataPending w
  /\ (metadataPending w = false ->
      filter is_remote_call (trace (workflow env w))
      = filter is_remote_call (trace w)).
Proof.
  intros H. rewrite (startCapture_unsupported env w H).
  assert (Hf : filter is_remote_call
                 (trace (startCapture_catch (Error unsupported_message)
                           (setError None w)))
               = filter is_remote_call (trace w))
    by (simpl; now apply filter_app_nil).
  repeat split; try assumption.
  intros Hnone. rewrite workflow_without_source.
  - now rewrite (startCapture_unsupported env w H).
  - now rewrite (startCapture_unsupported env w H).
Qed.

Lemma startCapture_unsupported_no_inference_witness :
  filter is_remote_call
    (trace (workflow (browser no_capture (Some sample_video)
                        (Some sample_canvas)) initialWorld)) = [].
Proof.
  exact (proj2 (proj2 (proj2 (proj2 (proj2
           (startCapture_unsupported_no_inference
              (browser no_capture (Some sample_video) (Some sample_canvas))
              initialWorld eq_refl))))) eq_refl).
Defined.

(** C7: when [startCapture] fails before it has a stream (no capability,
    or [getDisplayMedia] throws or is rejected), an error message is set,
    the loading flag is false and the trigger is enabled again; the
    display was asked for at most once, no timer is armed, no handler is
    set, the video element is given no source and the remote model is not
    called: nothing is tried again. *)
Theorem startCapture_failure_returns_to_idle (env : Env) (w : World) :
  acquired_stream (navigator env) = None ->
  error (ui (startCapture env w)) = Some cancelled_message
  /\ loading (ui (startCapture env w)) = false
  /\ triggerEnabled (ui (startCapture env w)) = true
  /\ onloadedmetadata (startCapture env w) = onloadedmetadata w
  /\ metadataPending (startCapture env w) = metadataPending w
  /\ exists evs,
       trace (startCapture env w) = (trace w ++ evs)%list
       /\ List.length (filter is_capture_call evs) <= 1
       /\ filter is_timer evs = []
       /\ filter is_remote_call evs = [].
Proof.
  unfold acquired_stream, startCapture.
  destruct (capability_absent (navigator env)).
  - intros _. repeat split.
    eexists. simpl. repeat split; simpl; auto.
  - destruct (pick_getDisplayMedia (navigator env)) as [[stream|err]|];
      intros H; try discriminate; repeat split.
    + exists [CallGetDisplayMedia; ConsoleError "Error starting capture:" err].
      simpl. rewrite <- app_assoc. repeat split; simpl; auto.
    + eexists. simpl. repeat split; simpl; auto.
Qed.

Lemma startCapture_failure_returns_to_idle_witness :
  error (ui (startCapture
               (browser prompt_dismissed (Some sample_video)
                  (Some sample_canvas)) initialWorld))
    = Some cancelled_message
  /\ loading (ui (startCapture
                    (browser prompt_dismissed (Some sample_video)
                       (Some sample_canvas)) initialWorld)) = false.
Proof.
  pose proof (startCapture_failure_returns_to_idle
                (browser prompt_dismissed (Some sample_video)
                   (Some sample_canvas)) initialWorld eq_refl)
    as [He [Hl _]].
  exact (conj He Hl).
Defined.

(** C3: without the capability, [startCapture] throws the error that
    says capture is not supported, and its own [catch] block replaces it:
    the message shown is the one of a cancelled capture, the same as when
    the user dismisses the prompt; the other message reaches the console
    only. *)
Theorem startCapture_unsupported_shows_cancelled :
  error (ui (startCapture
               (browser no_capture (Some sample_video) (Some sample_canvas))
               initialWorld))
    = Some cancelled_message
  /\ error (ui (startCapture
                  (browser no_capture (Some sample_video) (Some sample_canvas))
                  initialWorld))
    <> Some unsupported_message
  /\ ui (startCapture
           (browser no_capture (Some sample_video) (Some sample_canvas))
           initialWorld)
     = ui (startCapture
             (browser prompt_dismissed (Some sample_video)
                (Some sample_canvas))
             initialWorld)
  /\ trace (startCapture
              (browser no_capture (Some sample_video) (Some sample_canvas))
              initialWorld)
     = [ConsoleError "Error starting capture:" (Error unsupported_message)].
Proof.
  repeat split. discriminate.
Qed.

(** [analyzeImage] stops no track. *)
Lemma analyzeImage_stops (env : Env) (dataUrl : string) (w : World)
    (t : Track) :
  stops t (trace (analyzeImage env dataUrl w)) = stops t (trace w).
Proof.
  unfold analyzeImage, analyzeGameScreenshot.
  destruct (generateContent env (request dataUrl)) as [resp|e];
    [destruct (JSON.parse (or_else (text resp) "{}")) as [v|]|];
    cbn [snd fst];
    try (destruct (confidence v) as [c|e'];
         [destruct (greaterThan (platform env) c threshold) as [[|]|thrown]|]);
    cbn; unfold stops; rewrite ?filter_app; cbn;
    rewrite ?app_nil_r; reflexivity.
Qed.

Lemma stops_of_stream (t : Track) (stream : MediaStream) :
  stops t (map TrackStop stream) = count_occ Nat.eq_dec stream t.
Proof.
  unfold stops. induction stream as [|a r IH]; [reflexivity|].
  cbn [map filter is_stop_of count_occ].
  destruct (Nat.eq_dec a t) as [->|Hne].
  - rewrite Nat.eqb_refl. cbn. now rewrite IH.
  - assert (Nat.eqb t a = false) as -> by (apply Nat.eqb_neq; congruence).
    exact IH.
Qed.

(** X10: when the video and the canvas are there, [takeScreenshot] stops
    every track of the stream, once, whether or not the canvas gives a
    context. *)
Lemma takeScreenshot_stops_each_track_once (env : Env)
    (stream : MediaStream) (w : World) (video : Video) (canvas : Canvas)
    (t : Track) :
  videoRef env = Some video -> canvasRef env = Some canvas ->
  NoDup stream -> In t stream ->
  stops t (trace (takeScreenshot env stream w)) = stops t (trace w) + 1.
Proof.
  intros Hv Hc Hnd Hin. unfold takeScreenshot, stopTracks.
  rewrite Hv, Hc. cbn [trace emit]. rewrite stops_app, stops_of_stream.
  rewrite (proj1 (NoDup_count_occ' Nat.eq_dec stream) Hnd t Hin).
  destruct (getContext2d canvas); [|reflexivity].
  rewrite analyzeImage_stops. cbn [trace setScreenshot with_ui emit].
  rewrite stops_app. cbn. lia.
Qed.

(** ** The result *)

(** What [analyzeImage] does with a result whose confidence can be read. *)
Lemma analyzeImage_returned (env : Env) (dataUrl : string) (w : World)
    (result c : JsValue) :
  snd (analyzeGameScreenshot (generateContent env) dataUrl) = Returned result ->
  confidence result = Returned c ->
  analyzeImage env dataUrl w =
    let w1 := emit (fst (analyzeGameScreenshot (generateContent env) dataUrl)) w in
    let w2 := setShowResult true (setSuggestion result w1) in
    setLoading false
      match greaterThan (platform env) c threshold with
      | Returned true => emit [Confetti] w2
      | Returned false => w2
      | Threw err => analyzeImage_catch (platform env) err w2
      end.
Proof.
  intros Hres Hc. unfold analyzeImage.
  destruct (analyzeGameScreenshot (generateContent env) dataUrl) as [evs out].
  cbn [snd fst] in *. subst out. now rewrite Hc.
Qed.

(** C5: the answer [{'explanation':'col 3 best','column':3,
    'confidence':0.92}] (with double quotes) is returned as the object
    with these three fields and these values; and whenever the result
    given to [analyzeImage] has a confidence greater than 0.8, the
    suggestion is stored, the result is shown and the confetti is fired,
    once. *)
Theorem suggestion_returned_and_celebrated :
  (forall (gc : GenerateContent) (img : string),
      gc (request img) = Returned {| text := Some sample_suggestion_text |} ->
      analyzeGameScreenshot gc img
      = ([CallGenerateContent (request img)], Returned sample_suggestion))
  /\ (forall (env : Env) (dataUrl : string) (w : World) (result c : JsValue),
      snd (analyzeGameScreenshot (generateContent env) dataUrl)
        = Returned result ->
      confidence result = Returned c ->
      greaterThan (platform env) c threshold = Returned true ->
      trace (analyzeImage env dataUrl w)
      = (trace w
         ++ fst (analyzeGameScreenshot (generateContent env) dataUrl)
         ++ [Confetti])%list
      /\ suggestion (ui (analyzeImage env dataUrl w)) = result
      /\ showResult (ui (analyzeImage env dataUrl w)) = true
      /\ loading (ui (analyzeImage env dataUrl w)) = false).
Proof.
  split.
  - intros gc img H. unfold analyzeGameScreenshot. rewrite H.
    cbn [text].
    change (or_else (Some sample_suggestion_text) "{}")
      with sample_suggestion_text.
    now rewrite parse_sample_suggestion.
  - intros env dataUrl w result c Hres Hc Hgt.
    rewrite (analyzeImage_returned env dataUrl w result c Hres Hc), Hgt.
    cbn. rewrite <- app_assoc. repeat split.
Qed.

Lemma suggestion_returned_and_celebrated_witness :
  trace (analyzeImage
           (browser window_picked (Some sample_video) (Some sample_canvas))
           sample_image initialWorld)
  = [CallGenerateContent (request sample_image); Confetti]
  /\ suggestion (ui (analyzeImage
           (browser window_picked (Some sample_video) (Some sample_canvas))
           sample_image initialWorld)) = sample_suggestion.
Proof.
  pose proof (proj2 suggestion_returned_and_celebrated
                (browser window_picked (Some sample_video) (Some sample_canvas))
                sample_image initialWorld sample_suggestion
                (JNumber (number_of_decimal false 92 (-2)))
                eq_refl eq_refl eq_refl) as [Ht [Hs _]].
  exact (conj Ht Hs).
Defined.

(** The confidence of the sample is above the threshold, and 0.8 itself
    is not. *)
Lemma sample_confidence_above_threshold :
  greaterThan sample_platform (JNumber (number_of_decimal false 92 (-2)))
    threshold = Returned true
  /\ greaterThan sample_platform (JNumber (number_of_decimal false 8 (-1)))
       threshold = Returned false.
Proof. split; reflexivity. Qed.

(** ** Dismissal *)

(** C8: whatever the state, [closeResult] leaves the suggestion and the
    screenshot null and the result hidden, as they are at the start. *)
Theorem closeResult_resets (w : World) :
  suggestion (ui (closeResult w)) = suggestion initialState
  /\ screenshot (ui (closeResult w)) = screenshot initialState
  /\ showResult (ui (closeResult w)) = showResult initialState
  /\ suggestion initialState = JNull
  /\ screenshot initialState = None
  /\ showResult initialState = false.
Proof. repeat split. Qed.

(** C9: [closeResult] changes nothing else: the error message and the
    loading flag are as before, and so are the handler of the video
    element and the trace. *)
Theorem closeResult_frame (w : World) :
  error (ui (closeResult w)) = error (ui w)
  /\ loading (ui (closeResult w)) = loading (ui w)
  /\ onloadedmetadata (closeResult w) = onloadedmetadata w
  /\ metadataPending (closeResult w) = metadataPending w
  /\ trace (closeResult w) = trace w.
Proof. repeat split. Qed.

(** * Further properties of the code *)

(** ** The request and the remote call *)

(** Up to its first separator, a string is one element of the split. *)
Lemma split_from_separator (sep : ascii) (a b cur : string) :
  contains sep a = false ->
  split_from sep cur (a ++ String sep b)
  = (cur ++ a) :: split_from sep EmptyString b.
Proof.
  revert cur. induction a as [|c a IH]; intros cur H; simpl in *.
  - now rewrite Ascii.eqb_refl, append_empty.
  - apply orb_false_iff in H as [Hc Ha]. rewrite Hc, (IH _ Ha).
    now rewrite append_assoc_char.
Qed.

Lemma split_separator (sep : ascii) (a b : string) :
  contains sep a = false ->
  split sep (a ++ String sep b) = a :: split sep b.
Proof.
  intros H. unfold split. now rewrite (split_from_separator sep a b _ H).
Qed.

(** X1: the image data sent is what stands between the first comma of the
    data URI and the next one, or the end: the prefix [data:...;base64]
    is cut off, and so is anything after a second comma. *)
Theorem request_strips_prefix (prefix payload : string) :
  contains "," prefix = false -> contains "," payload = false ->
  parts (request (prefix ++ String "," payload)) =
    [TextPart prompt;
     InlineDataPart {| mimeType := "image/png"; data := Some payload |}]
  /\ forall rest,
       request (prefix ++ String "," (payload ++ String "," rest))
       = request (prefix ++ String "," payload).
Proof.
  intros Hp Hq.
  assert (H1 : nth_error (split "," (prefix ++ String "," payload)) 1
               = Some payload).
  { rewrite (split_separator _ _ _ Hp), (split_no_separator _ _ Hq).
    reflexivity. }
  split.
  - unfold request. cbn [parts]. now rewrite H1.
  - intros rest. unfold request. rewrite H1.
    rewrite (split_separator _ _ _ Hp), (split_separator _ _ _ Hq).
    reflexivity.
Qed.

Lemma request_strips_prefix_witness :
  parts (request sample_image) =
    [TextPart prompt;
     InlineDataPart {| mimeType := "image/png"; data := Some plain_text |}].
Proof.
  exact (proj1 (request_strips_prefix "data:image/png;base64" plain_text
                  eq_refl eq_refl)).
Defined.

(** The events of a call are the request, and a console line when the
    answer could not be parsed. *)
Lemma analyzeGameScreenshot_events (gc : GenerateContent) (img : string) :
  fst (analyzeGameScreenshot gc img) = [CallGenerateContent (request img)]
  \/ fst (analyzeGameScreenshot gc img)
     = [CallGenerateContent (request img);
        ConsoleError "Failed to parse Gemini response:" SyntaxError].
Proof.
  unfold analyzeGameScreenshot.
  destruct (gc (request img)) as [resp|e]; [|now left].
  destruct (JSON.parse (or_else (text resp) "{}")); [now left | now right].
Qed.

(** X2: one call of [analyzeGameScreenshot] is one request to the remote
    model, never a second one; and it fails in two ways only: with what
    the remote call was rejected with, which is passed on as it is and
    not logged, or with the parse error, which is logged. *)
Theorem analyzeGameScreenshot_one_request (gc : GenerateContent)
    (img : string) :
  filter is_remote_call (fst (analyzeGameScreenshot gc img))
    = [CallGenerateContent (request img)]
  /\ (forall e, snd (analyzeGameScreenshot gc img) = Threw e ->
        (gc (request img) = Threw e
         /\ fst (analyzeGameScreenshot gc img)
            = [CallGenerateContent (request img)])
        \/ (e = parse_failure
            /\ fst (analyzeGameScreenshot gc img)
               = [CallGenerateContent (request img);
                  ConsoleError "Failed to parse Gemini response:"
                    SyntaxError])).
Proof.
  split.
  - destruct (analyzeGameScreenshot_events gc img) as [-> | ->]; reflexivity.
  - intros e. unfold analyzeGameScreenshot.
    destruct (gc (request img)) as [resp|e'].
    + destruct (JSON.parse (or_else (text resp) "{}")); cbn [snd fst];
        intros H; [discriminate|]. injection H as <-. now right.
    + cbn [snd fst]. intros H. injection H as <-. now left.
Qed.

(** ** Starting a capture *)

(** X3: the guard of [startCapture] and the choice of the function to call
    agree: the guard throws exactly when there is nothing to call, so the
    call that follows it is never a call of [undefined]. The function of
    [navigator.mediaDevices] is preferred; the one of [navigator] is used
    when the first is missing. *)
Theorem capability_guard_matches_choice (nav : Navigator) :
  (capability_absent nav = true <-> pick_getDisplayMedia nav = None)
  /\ (forall md f, mediaDevices nav = Some md -> getDisplayMedia md = Some f ->
        pick_getDisplayMedia nav = Some f)
  /\ (forall f, legacy_getDisplayMedia nav = Some f ->
        (mediaDevices nav = None
         \/ exists md, mediaDevices nav = Some md /\ getDisplayMedia md = None) ->
        pick_getDisplayMedia nav = Some f).
Proof.
  unfold capability_absent, pick_getDisplayMedia.
  destruct nav as [md lg]. cbn [mediaDevices legacy_getDisplayMedia].
  split; [|split].
  - destruct md as [[[f1|]]|]; destruct lg as [f2|]; cbn;
      split; congruence.
  - intros md' f H1 H2. rewrite H1, H2. reflexivity.
  - intros f Hf [H | [md' [H1 H2]]].
    + now rewrite H.
    + now rewrite H1, H2.
Qed.

(** X4: what [startCapture] does when the stream is granted and the video
    element is there: the error is cleared, the loading flag is set,
    [getDisplayMedia] is called once, the video element is given the
    stream and told to play, and the handler that waits for the metadata
    holds this stream. *)
Theorem startCapture_granted (env : Env) (w : World) (stream : MediaStream)
    (video : Video) :
  acquired_stream (navigator env) = Some stream ->
  videoRef env = Some video ->
  ui (startCapture env w) =
    {| screenshot := screenshot (ui w); suggestion := suggestion (ui w);
       loading := true; error := None; showResult := showResult (ui w) |}
  /\ trace (startCapture env w)
     = (trace w ++ [CallGetDisplayMedia; SetSrcObject stream; Play])%list
  /\ onloadedmetadata (startCapture env w) = Some stream
  /\ metadataPending (startCapture env w) = true.
Proof.
  unfold acquired_stream, startCapture.
  destruct (capability_absent (navigator env)); [discriminate|].
  destruct (pick_getDisplayMedia (navigator env)) as [[s|e]|];
    try discriminate.
  intros H Hv. injection H as ->. rewrite Hv. cbn.
  rewrite <- !app_assoc. repeat split.
Qed.

Lemma startCapture_granted_witness :
  trace (startCapture (browser legacy_only (Some sample_video)
                         (Some sample_canvas)) initialWorld)
  = [CallGetDisplayMedia; SetSrcObject [0; 1]; Play]
  /\ onloadedmetadata
       (startCapture (browser legacy_only (Some sample_video)
                        (Some sample_canvas)) initialWorld) = Some [0; 1].
Proof.
  pose proof (startCapture_granted
                (browser legacy_only (Some sample_video) (Some sample_canvas))
                initialWorld [0; 1] sample_video eq_refl eq_refl)
    as [_ [Ht [Hh _]]].
  exact (conj Ht Hh).
Defined.

(** X5: whatever the browser and the state, [startCapture] leaves the
    screenshot, the suggestion and the visibility of the result as they
    were (a result that is shown stays shown while the next capture
    runs), and the error it leaves is either none or the message of a
    cancelled capture: the error of an earlier run does not survive. It
    calls [getDisplayMedia] at most once and never the remote model. *)
Theorem startCapture_frame (env : Env) (w : World) :
  screenshot (ui (startCapture env w)) = screenshot (ui w)
  /\ suggestion (ui (startCapture env w)) = suggestion (ui w)
  /\ showResult (ui (startCapture env w)) = showResult (ui w)
  /\ (error (ui (startCapture env w)) = None
      \/ error (ui (startCapture env w)) = Some cancelled_message)
  /\ exists evs,
       trace (startCapture env w) = (trace w ++ evs)%list
       /\ List.length (filter is_capture_call evs) <= 1
       /\ filter is_remote_call evs = [].
Proof.
  unfold startCapture.
  destruct (capability_absent (navigator env)).
  - repeat split; [now right|]. eexists. cbn. repeat split; cbn; auto.
  - destruct (pick_getDisplayMedia (navigator env)) as [[s|e]|].
    + destruct (videoRef env).
      * repeat split; [now left|].
        exists [CallGetDisplayMedia; SetSrcObject s; Play]. cbn.
        rewrite <- !app_assoc. repeat split; cbn; auto.
      * repeat split; [now left|].
        exists [CallGetDisplayMedia]. cbn. repeat split; cbn; auto.
    + repeat split; [now right|].
      exists [CallGetDisplayMedia; ConsoleError "Error starting capture:" e].
      cbn. rewrite <- !app_assoc. repeat split; cbn; auto.
    + repeat split; [now right|]. eexists. cbn. repeat split; cbn; auto.
Qed.

(** ** Handling the answer *)

(** [analyzeImage], with the call of [analyzeGameScreenshot] named. *)
Lemma analyzeImage_unfold (env : Env) (dataUrl : string) (w : World) :
  analyzeImage env dataUrl w =
    let w1 :=
      emit (fst (analyzeGameScreenshot (generateContent env) dataUrl)) w in
    setLoading false
      match snd (analyzeGameScreenshot (generateContent env) dataUrl) with
      | Returned result =>
          let w2 := setShowResult true (setSuggestion result w1) in
          match confidence result with
          | Returned c =>
              match greaterThan (platform env) c threshold with
              | Returned true => emit [Confetti] w2
              | Returned false => w2
              | Threw err => analyzeImage_catch (platform env) err w2
              end
          | Threw err => analyzeImage_catch (platform env) err w2
          end
      | Threw err => analyzeImage_catch (platform env) err w1
      end.
Proof.
  unfold analyzeImage.
  now destruct (analyzeGameScreenshot (generateContent env) dataUrl).
Qed.

(** What [analyzeImage] adds to the trace: the events of the call, and
    the confetti or nothing. *)
Lemma analyzeImage_trace (env : Env) (dataUrl : string) (w : World) :
  exists tail,
    trace (analyzeImage env dataUrl w)
    = (trace w
       ++ fst (analyzeGameScreenshot (generateContent env) dataUrl)
       ++ tail)%list
    /\ (tail = [] \/ tail = [Confetti]).
Proof.
  rewrite analyzeImage_unfold. cbn zeta.
  destruct (snd (analyzeGameScreenshot (generateContent env) dataUrl))
    as [result|err].
  - destruct (confidence result) as [c|err].
    + destruct (greaterThan (platform env) c threshold) as [[|]|thrown].
      * exists [Confetti]. cbn. rewrite <- app_assoc. auto.
      * exists []. cbn. rewrite app_nil_r. auto.
      * exists []. cbn. rewrite app_nil_r. auto.
    + exists []. cbn. rewrite app_nil_r. auto.
  - exists []. cbn. rewrite app_nil_r. auto.
Qed.

Lemma no_confetti_in_call (gc : GenerateContent) (img : string) :
  filter is_confetti (fst (analyzeGameScreenshot gc img)) = [].
Proof.
  destruct (analyzeGameScreenshot_events gc img) as [-> | ->]; reflexivity.
Qed.

Lemma one_request_in_call (gc : GenerateContent) (img : string) :
  filter is_remote_call (fst (analyzeGameScreenshot gc img))
  = [CallGenerateContent (request img)].
Proof.
  destruct (analyzeGameScreenshot_events gc img) as [-> | ->]; reflexivity.
Qed.

Lemma or_else_default (a : option string) (d : string) :
  d <> EmptyString -> or_else a d <> EmptyString.
Proof.
  intros Hd. destruct a as [[|c r]|]; cbn; congruence.
Qed.

(** X6: however the analysis ends, [analyzeImage] clears the loading flag,
    has sent one request to the remote model with the image it was
    given, and leaves the screenshot, the handler of the video element
    and the tracks alone. *)
Theorem analyzeImage_always (env : Env) (dataUrl : string) (w : World) :
  loading (ui (analyzeImage env dataUrl w)) = false
  /\ filter is_remote_call (trace (analyzeImage env dataUrl w))
     = (filter is_remote_call (trace w)
        ++ [CallGenerateContent (request dataUrl)])%list
  /\ screenshot (ui (analyzeImage env dataUrl w)) = screenshot (ui w)
  /\ onloadedmetadata (analyzeImage env dataUrl w) = onloadedmetadata w
  /\ metadataPending (analyzeImage env dataUrl w) = metadataPending w
  /\ forall t, stops t (trace (analyzeImage env dataUrl w)) = stops t (trace w).
Proof.
  split; [|split; [|split; [|split; [|split]]]].
  - rewrite analyzeImage_unfold. reflexivity.
  - destruct (analyzeImage_trace env dataUrl w) as [tail [-> Htail]].
    rewrite !filter_app, one_request_in_call.
    destruct Htail as [-> | ->]; cbn; now rewrite ?app_nil_r.
  - rewrite analyzeImage_unfold. cbn zeta.
    destruct (snd (analyzeGameScreenshot (generateContent env) dataUrl))
      as [result|err]; [destruct (confidence result) as [c|err];
      [destruct (greaterThan (platform env) c threshold) as [[|]|thrown]|]|]; reflexivity.
  - rewrite analyzeImage_unfold. cbn zeta.
    destruct (snd (analyzeGameScreenshot (generateContent env) dataUrl))
      as [result|err]; [destruct (confidence result) as [c|err];
      [destruct (greaterThan (platform env) c threshold) as [[|]|thrown]|]|]; reflexivity.
  - rewrite analyzeImage_unfold. cbn zeta.
    destruct (snd (analyzeGameScreenshot (generateContent env) dataUrl))
      as [result|err]; [destruct (confidence result) as [c|err];
      [destruct (greaterThan (platform env) c threshold) as [[|]|thrown]|]|]; reflexivity.
  - intros t. apply analyzeImage_stops.
Qed.

(** X7: when the call fails, with the parse error or with what the remote
    call was rejected with, [analyzeImage] sets the error to the message
    of what was thrown, or to its own message when there is none or it
    is empty: the toast is mounted with a text that is never empty. The
    suggestion and the visibility of the result are as before, and no
    confetti is fired. *)
Theorem analyzeImage_failure (env : Env) (dataUrl : string) (w : World)
    (err : JsError) :
  snd (analyzeGameScreenshot (generateContent env) dataUrl) = Threw err ->
  error (ui (analyzeImage env dataUrl w))
    = Some (or_else (message (platform env) err) "Erreur d'analyse.")
  /\ toastMounted (ui (analyzeImage env dataUrl w))
    = Some (or_else (message (platform env) err) "Erreur d'analyse.")
  /\ suggestion (ui (analyzeImage env dataUrl w)) = suggestion (ui w)
  /\ showResult (ui (analyzeImage env dataUrl w)) = showResult (ui w)
  /\ filter is_confetti (trace (analyzeImage env dataUrl w))
     = filter is_confetti (trace w).
Proof.
  intros H. rewrite analyzeImage_unfold, H. cbn.
  repeat split.
  - unfold toastMounted. cbn.
    pose proof (or_else_default (message (platform env) err)
                  "Erreur d'analyse." ltac:(discriminate)) as Hne.
    destruct (or_else (message (platform env) err) "Erreur d'analyse.");
      [congruence | reflexivity].
  - rewrite filter_app, no_confetti_in_call. now rewrite app_nil_r.
Qed.

Lemma analyzeImage_failure_witness :
  error (ui (analyzeImage
               (browser_with (refusing (Some "API key not valid"))
                  window_picked (Some sample_video) (Some sample_canvas))
               sample_image initialWorld))
    = Some "API key not valid"
  /\ error (ui (analyzeImage
               (browser_with (refusing None)
                  window_picked (Some sample_video) (Some sample_canvas))
               sample_image initialWorld))
    = Some "Erreur d'analyse."
  /\ error (ui (analyzeImage
               (browser_with (answering (Some "not json"))
                  window_picked (Some sample_video) (Some sample_canvas))
               sample_image initialWorld))
    = Some "L'IA n'a pas pu analyser l'image correctement.".
Proof.
  split; [|split].
  - exact (proj1 (analyzeImage_failure
             (browser_with (refusing (Some "API key not valid"))
                window_picked (Some sample_video) (Some sample_canvas))
             sample_image initialWorld _ eq_refl)).
  - exact (proj1 (analyzeImage_failure
             (browser_with (refusing None)
                window_picked (Some sample_video) (Some sample_canvas))
             sample_image initialWorld _ eq_refl)).
  - exact (proj1 (analyzeImage_failure
             (browser_with (answering (Some "not json"))
                window_picked (Some sample_video) (Some sample_canvas))
             sample_image initialWorld _ eq_refl)).
Defined.

(** X8: when the answer is the JSON text [null], the suggestion is set to
    null and the result is marked as shown before the confidence is
    read; reading it throws, so the overlay is mounted without a card,
    and the toast is mounted with the message of the [TypeError] (with
    the message of [analyzeImage] if that one is empty). *)
Theorem analyzeImage_null_result (env : Env) (dataUrl : string) (w : World) :
  snd (analyzeGameScreenshot (generateContent env) dataUrl) = Returned JNull ->
  suggestion (ui (analyzeImage env dataUrl w)) = JNull
  /\ overlayMounted (ui (analyzeImage env dataUrl w)) = true
  /\ cardMounted (ui (analyzeImage env dataUrl w)) = false
  /\ error (ui (analyzeImage env dataUrl w))
     = Some (or_else (Some (typeErrorMessage (platform env)))
               "Erreur d'analyse.")
  /\ loading (ui (analyzeImage env dataUrl w)) = false.
Proof.
  intros H. rewrite analyzeImage_unfold, H. repeat split.
Qed.

Lemma analyzeImage_null_result_witness :
  overlayMounted
    (ui (analyzeImage
           (browser_with (answering (Some "null"))
              window_picked (Some sample_video) (Some sample_canvas))
           sample_image initialWorld)) = true
  /\ cardMounted
    (ui (analyzeImage
           (browser_with (answering (Some "null"))
              window_picked (Some sample_video) (Some sample_canvas))
           sample_image initialWorld)) = false.
Proof.
  pose proof (analyzeImage_null_result
                (browser_with (answering (Some "null"))
                   window_picked (Some sample_video) (Some sample_canvas))
                sample_image initialWorld eq_refl) as [_ [Ho [Hc _]]].
  exact (conj Ho Hc).
Defined.

(** The comparison with 0.8 on the values it meets: a number is
    compared as it is, a missing confidence is never greater, and an
    object with a [toString] of its own makes the comparison throw. *)
Lemma greaterThan_cases (p : Platform) (n : number) :
  (forall x, greaterThan p (JNumber x) n = Returned (lessThan n x))
  /\ greaterThan p JUndefined n = Returned false
  /\ (forall ms v, own_property "toString" ms = Some v ->
        greaterThan p (JObject ms) n = Threw NotPrimitive).
Proof.
  repeat split.
  - unfold greaterThan, lessThan. cbn. now destruct n.
  - intros ms v H. unfold greaterThan. cbn. now rewrite H.
Qed.

(** X9: for a result whose confidence can be read, the suggestion is
    stored, the result is shown and the loading flag is cleared, and what
    follows depends on the comparison of the confidence with 0.8. If it
    is true the confetti is fired, once; if it is false nothing is fired;
    in both cases the error is left as it was. If the comparison throws,
    nothing is fired and the error is set from what was thrown. A result
    without a [confidence] of its own never fires the confetti; a
    confidence that is an object with a [toString] of its own makes the
    comparison throw. *)
Theorem analyzeImage_confetti_iff (env : Env) (dataUrl : string) (w : World)
    (result c : JsValue) :
  snd (analyzeGameScreenshot (generateContent env) dataUrl) = Returned result ->
  confidence result = Returned c ->
  suggestion (ui (analyzeImage env dataUrl w)) = result
  /\ showResult (ui (analyzeImage env dataUrl w)) = true
  /\ loading (ui (analyzeImage env dataUrl w)) = false
  /\ (forall b, greaterThan (platform env) c threshold = Returned b ->
        filter is_confetti (trace (analyzeImage env dataUrl w))
        = (filter is_confetti (trace w)
           ++ if b then [Confetti] else [])%list
        /\ error (ui (analyzeImage env dataUrl w)) = error (ui w))
  /\ (forall err, greaterThan (platform env) c threshold = Threw err ->
        filter is_confetti (trace (analyzeImage env dataUrl w))
        = filter is_confetti (trace w)
        /\ error (ui (analyzeImage env dataUrl w))
           = Some (or_else (message (platform env) err) "Erreur d'analyse."))
  /\ (c = JUndefined ->
        filter is_confetti (trace (analyzeImage env dataUrl w))
        = filter is_confetti (trace w)
        /\ error (ui (analyzeImage env dataUrl w)) = error (ui w))
  /\ (forall ms v, c = JObject ms -> own_property "toString" ms = Some v ->
        filter is_confetti (trace (analyzeImage env dataUrl w))
        = filter is_confetti (trace w)
        /\ error (ui (analyzeImage env dataUrl w))
           = Some (or_else (Some (notPrimitiveMessage (platform env)))
                     "Erreur d'analyse.")).
Proof.
  intros H Hc.
  assert (Hret : forall b, greaterThan (platform env) c threshold = Returned b ->
        filter is_confetti (trace (analyzeImage env dataUrl w))
        = (filter is_confetti (trace w)
           ++ if b then [Confetti] else [])%list
        /\ error (ui (analyzeImage env dataUrl w)) = error (ui w)).
  { intros b Hb. rewrite analyzeImage_unfold, H. cbn zeta. rewrite Hc, Hb.
    destruct b; cbn; rewrite !filter_app, no_confetti_in_call; cbn;
      now rewrite ?app_nil_r. }
  assert (Hthrow : forall err,
        greaterThan (platform env) c threshold = Threw err ->
        filter is_confetti (trace (analyzeImage env dataUrl w))
        = filter is_confetti (trace w)
        /\ error (ui (analyzeImage env dataUrl w))
           = Some (or_else (message (platform env) err) "Erreur d'analyse.")).
  { intros err He. rewrite analyzeImage_unfold, H. cbn zeta. rewrite Hc, He.
    cbn. rewrite filter_app, no_confetti_in_call. now rewrite app_nil_r. }
  split; [|split; [|split; [|split; [|split; [|split]]]]].
  - rewrite analyzeImage_unfold, H. cbn zeta. rewrite Hc.
    destruct (greaterThan (platform env) c threshold) as [[|]|thrown];
      reflexivity.
  - rewrite analyzeImage_unfold, H. cbn zeta. rewrite Hc.
    destruct (greaterThan (platform env) c threshold) as [[|]|thrown];
      reflexivity.
  - rewrite analyzeImage_unfold. reflexivity.
  - exact Hret.
  - exact Hthrow.
  - intros ->.
    destruct (Hret false
                (proj1 (proj2 (greaterThan_cases (platform env) threshold))))
      as [Hf He].
    split; [|exact He]. rewrite Hf. cbn. now rewrite app_nil_r.
  - intros ms v -> Hts.
    exact (Hthrow NotPrimitive
             (proj2 (proj2 (greaterThan_cases (platform env) threshold))
                ms v Hts)).
Qed.

Lemma analyzeImage_confetti_iff_witness :
  filter is_confetti
    (trace (analyzeImage
              (browser_with (answering (Some (dq "{'confidence':{'toString':0}}")))
                 window_picked (Some sample_video) (Some sample_canvas))
              sample_image initialWorld)) = []
  /\ error
    (ui (analyzeImage
           (browser_with (answering (Some (dq "{'confidence':{'toString':0}}")))
              window_picked (Some sample_video) (Some sample_canvas))
           sample_image initialWorld))
     = Some "Cannot convert object to primitive value".
Proof.
  exact (proj2 (proj2 (proj2 (proj2 (proj2 (proj2
           (analyzeImage_confetti_iff
              (browser_with
                 (answering (Some (dq "{'confidence':{'toString':0}}")))
                 window_picked (Some sample_video) (Some sample_canvas))
              sample_image initialWorld
              (JObject
                 [("confidence",
                   JObject [("toString", JNumber (S754_zero false))])])
              (JObject [("toString", JNumber (S754_zero false))])
              eq_refl eq_refl))))))
           [("toString", JNumber (S754_zero false))]
           (JNumber (S754_zero false)) eq_refl eq_refl).
Defined.

(** ** Taking the screenshot *)

Lemma takeScreenshot_missing_ref (env : Env) (stream : MediaStream)
    (w : World) :
  videoRef env = None \/ canvasRef env = None ->
  takeScreenshot env stream w = w.
Proof.
  unfold takeScreenshot. intros [-> | ->]; [reflexivity|].
  now destruct (videoRef env).
Qed.

(** With both elements there, what [takeScreenshot] is. *)
Lemma takeScreenshot_mounted (env : Env) (stream : MediaStream) (w : World)
    (video : Video) (canvas : Canvas) :
  videoRef env = Some video -> canvasRef env = Some canvas ->
  takeScreenshot env stream w =
    stopTracks stream
      (if getContext2d canvas then
         analyzeImage env (toDataURL canvas)
           (setScreenshot (Some (toDataURL canvas))
              (emit [DrawImage (videoWidth video) (videoHeight video);
                     ToDataURL "image/png"] w))
       else w).
Proof.
  intros Hv Hc. unfold takeScreenshot. now rewrite Hv, Hc.
Qed.

Lemma analyzeImage_loading (env : Env) (dataUrl : string) (w : World) :
  loading (ui (analyzeImage env dataUrl w)) = false.
Proof. rewrite analyzeImage_unfold. reflexivity. Qed.

Lemma analyzeImage_screenshot (env : Env) (dataUrl : string) (w : World) :
  screenshot (ui (analyzeImage env dataUrl w)) = screenshot (ui w).
Proof.
  rewrite analyzeImage_unfold. cbn zeta.
  destruct (snd (analyzeGameScreenshot (generateContent env) dataUrl))
    as [result|err]; [destruct (confidence result) as [c|err];
    [destruct (greaterThan (platform env) c threshold) as [[|]|thrown]|]|]; reflexivity.
Qed.

Lemma analyzeImage_remote_calls (env : Env) (dataUrl : string) (w : World) :
  filter is_remote_call (trace (analyzeImage env dataUrl w))
  = (filter is_remote_call (trace w)
     ++ [CallGenerateContent (request dataUrl)])%list.
Proof.
  destruct (analyzeImage_trace env dataUrl w) as [tail [-> Htail]].
  rewrite !filter_app, one_request_in_call.
  destruct Htail as [-> | ->]; cbn; now rewrite ?app_nil_r.
Qed.

Lemma no_remote_call_in_stops (stream : MediaStream) :
  filter is_remote_call (map TrackStop stream) = [].
Proof.
  induction stream as [|a r IH]; [reflexivity | exact IH].
Qed.

Lemma takeScreenshot_stops_witness :
  stops 1
    (trace (takeScreenshot
              (browser legacy_only (Some sample_video) (Some blind_canvas))
              [0; 1] initialWorld)) = 1.
Proof.
  refine (takeScreenshot_stops_each_track_once
            (browser legacy_only (Some sample_video) (Some blind_canvas))
            [0; 1] initialWorld sample_video blind_canvas 1
            eq_refl eq_refl _ _).
  - repeat constructor; cbn; intuition discriminate.
  - cbn. auto.
Defined.

(** X11: when the canvas gives no 2d context, [takeScreenshot] stops the
    tracks and does nothing else: no frame is drawn, no screenshot is
    stored, the remote model is not called, and the state is untouched,
    so a loading flag that was set stays set. *)
Theorem takeScreenshot_without_context (env : Env) (stream : MediaStream)
    (w : World) (video : Video) (canvas : Canvas) :
  videoRef env = Some video -> canvasRef env = Some canvas ->
  getContext2d canvas = false ->
  ui (takeScreenshot env stream w) = ui w
  /\ trace (takeScreenshot env stream w)
     = (trace w ++ map TrackStop stream)%list
  /\ filter is_remote_call (trace (takeScreenshot env stream w))
     = filter is_remote_call (trace w).
Proof.
  intros Hv Hc Hctx.
  rewrite (takeScreenshot_mounted env stream w video canvas Hv Hc), Hctx.
  repeat split. cbn. rewrite filter_app, no_remote_call_in_stops.
  now rewrite app_nil_r.
Qed.

Lemma takeScreenshot_without_context_witness :
  trace (takeScreenshot
           (browser window_picked (Some sample_video) (Some blind_canvas))
           [0] initialWorld) = [TrackStop 0].
Proof.
  exact (proj1 (proj2 (takeScreenshot_without_context
           (browser window_picked (Some sample_video) (Some blind_canvas))
           [0] initialWorld sample_video blind_canvas
           eq_refl eq_refl eq_refl))).
Defined.

(** ** The whole workflow *)

Lemma startCapture_granted_eq (env : Env) (w : World) (stream : MediaStream) :
  acquired_stream (navigator env) = Some stream ->
  startCapture env w =
    let w1 := emit [CallGetDisplayMedia] (setLoading true (setError None w)) in
    match videoRef env with
    | Some _ => setOnloadedmetadata stream (emit [Play] (setSrcObject stream w1))
    | None => w1
    end.
Proof.
  unfold acquired_stream, startCapture.
  destruct (capability_absent (navigator env)); [discriminate|].
  destruct (pick_getDisplayMedia (navigator env)) as [[s|e]|];
    try discriminate.
  intros H. now injection H as ->.
Qed.

(** X12: after one click followed to the end, from a state in which the video
    element is not waiting for metadata, the loading flag is cleared in
    every case but one: a stream was granted and the screenshot could not
    be analysed because the video element, the canvas or its 2d context
    is missing. In that case it stays set, and the trigger stays
    disabled. *)
Theorem workflow_loading (env : Env) (w : World) :
  metadataPending w = false ->
  loading (ui (workflow env w)) =
    match acquired_stream (navigator env), videoRef env, canvasRef env with
    | Some _, Some _, Some canvas => negb (getContext2d canvas)
    | Some _, _, _ => true
    | None, _, _ => false
    end.
Proof.
  intros Hp. unfold workflow, loadedmetadata.
  destruct (acquired_stream (navigator env)) as [stream|] eqn:Ha.
  - rewrite (startCapture_granted_eq env w stream Ha). cbn zeta.
    destruct (videoRef env) as [video|] eqn:Hv.
    + cbn [metadataPending setOnloadedmetadata emit setSrcObject
           onloadedmetadata metadataReported].
      destruct (canvasRef env) as [canvas|] eqn:Hc.
      * rewrite (takeScreenshot_mounted env stream _ video canvas Hv Hc).
        destruct (getContext2d canvas); cbn [stopTracks emit ui negb].
        -- apply analyzeImage_loading.
        -- reflexivity.
      * rewrite takeScreenshot_missing_ref by now right. reflexivity.
    + cbn [metadataPending emit setLoading setError with_ui]. rewrite Hp.
      reflexivity.
  - unfold acquired_stream in Ha. unfold startCapture.
    destruct (capability_absent (navigator env)).
    + cbn. rewrite Hp. reflexivity.
    + destruct (pick_getDisplayMedia (navigator env)) as [[s|e]|];
        try discriminate; cbn; rewrite Hp; reflexivity.
Qed.

Lemma workflow_loading_witness :
  loading (ui (workflow
                 (browser window_picked (Some sample_video)
                    (Some blind_canvas)) initialWorld)) = true
  /\ loading (ui (workflow
                 (browser window_picked (Some sample_video)
                    (Some sample_canvas)) initialWorld)) = false.
Proof.
  split.
  - exact (workflow_loading
             (browser window_picked (Some sample_video) (Some blind_canvas))
             initialWorld eq_refl).
  - exact (workflow_loading
             (browser window_picked (Some sample_video) (Some sample_canvas))
             initialWorld eq_refl).
Defined.

Lemma workflow_granted_eq (env : Env) (w : World) (stream : MediaStream)
    (video : Video) :
  acquired_stream (navigator env) = Some stream ->
  videoRef env = Some video ->
  workflow env w =
    takeScreenshot env stream
      (emit [SetTimeout 500]
         (metadataReported
            (setOnloadedmetadata stream
               (emit [Play]
                  (setSrcObject stream
                     (emit [CallGetDisplayMedia]
                        (setLoading true (setError None w)))))))).
Proof.
  intros Ha Hv. unfold workflow, loadedmetadata.
  rewrite (startCapture_granted_eq env w stream Ha), Hv. reflexivity.
Qed.

Lemma stops_with_analysis (env : Env) (stream : MediaStream) (w : World)
    (video : Video) (canvas : Canvas) (t : Track) :
  videoRef env = Some video -> canvasRef env = Some canvas ->
  stops t (trace (takeScreenshot env stream w))
  = stops t (trace w) + count_occ Nat.eq_dec stream t.
Proof.
  intros Hv Hc.
  rewrite (takeScreenshot_mounted env stream w video canvas Hv Hc).
  unfold stopTracks. cbn [trace emit]. rewrite stops_app, stops_of_stream.
  destruct (getContext2d canvas); [|reflexivity].
  rewrite analyzeImage_stops. cbn [trace setScreenshot with_ui emit].
  rewrite stops_app. cbn. lia.
Qed.

(** X13: one click that goes well: the stream is granted, the video element
    and the canvas are there and the canvas gives a context. Then the
    display is asked for once and one timer is armed; the screenshot
    stored is the data URI of the canvas, and exactly that image is sent,
    in one request, to the remote model; every track of the stream is
    stopped once; and the loading flag is cleared, whatever the remote
    model answers. *)
Theorem workflow_granted (env : Env) (w : World) (stream : MediaStream)
    (video : Video) (canvas : Canvas) :
  acquired_stream (navigator env) = Some stream ->
  videoRef env = Some video -> canvasRef env = Some canvas ->
  getContext2d canvas = true -> NoDup stream ->
  screenshot (ui (workflow env w)) = Some (toDataURL canvas)
  /\ loading (ui (workflow env w)) = false
  /\ filter is_remote_call (trace (workflow env w))
     = (filter is_remote_call (trace w)
        ++ [CallGenerateContent (request (toDataURL canvas))])%list
  /\ filter is_capture_call (trace (workflow env w))
     = (filter is_capture_call (trace w) ++ [CallGetDisplayMedia])%list
  /\ filter is_timer (trace (workflow env w))
     = (filter is_timer (trace w) ++ [SetTimeout 500])%list
  /\ forall t, In t stream ->
       stops t (trace (workflow env w)) = stops t (trace w) + 1.
Proof.
  intros Ha Hv Hc Hctx Hnd.
  rewrite (workflow_granted_eq env w stream video Ha Hv).
  split; [|split; [|split; [|split; [|split]]]].
  - rewrite (takeScreenshot_mounted env stream _ video canvas Hv Hc), Hctx.
    cbn [stopTracks emit ui]. rewrite analyzeImage_screenshot. reflexivity.
  - rewrite (takeScreenshot_mounted env stream _ video canvas Hv Hc), Hctx.
    cbn [stopTracks emit ui]. apply analyzeImage_loading.
  - rewrite (takeScreenshot_mounted env stream _ video canvas Hv Hc), Hctx.
    cbn [stopTracks emit trace].
    rewrite filter_app, no_remote_call_in_stops, app_nil_r.
    rewrite analyzeImage_remote_calls. cbn. rewrite !filter_app. cbn.
    now rewrite !app_nil_r.
  - rewrite (takeScreenshot_mounted env stream _ video canvas Hv Hc), Hctx.
    cbn [stopTracks emit trace].
    match goal with
    | |- context [analyzeImage env ?d ?W] =>
        destruct (analyzeImage_trace env d W) as [tail [-> Htail]]
    end.
    cbn. rewrite !filter_app.
    assert (Hs : filter is_capture_call (map TrackStop stream) = [])
      by (clear; induction stream; [reflexivity | assumption]).
    assert (Hcall : filter is_capture_call
                      (fst (analyzeGameScreenshot (generateContent env)
                              (toDataURL canvas))) = [])
      by (destruct (analyzeGameScreenshot_events (generateContent env)
                      (toDataURL canvas)) as [-> | ->]; reflexivity).
    rewrite Hs, Hcall.
    destruct Htail as [-> | ->]; cbn; now rewrite !app_nil_r.
  - rewrite (takeScreenshot_mounted env stream _ video canvas Hv Hc), Hctx.
    cbn [stopTracks emit trace].
    match goal with
    | |- context [analyzeImage env ?d ?W] =>
        destruct (analyzeImage_trace env d W) as [tail [-> Htail]]
    end.
    cbn. rewrite !filter_app.
    assert (Hs : filter is_timer (map TrackStop stream) = [])
      by (clear; induction stream; [reflexivity | assumption]).
    assert (Hcall : filter is_timer
                      (fst (analyzeGameScreenshot (generateContent env)
                              (toDataURL canvas))) = [])
      by (destruct (analyzeGameScreenshot_events (generateContent env)
                      (toDataURL canvas)) as [-> | ->]; reflexivity).
    rewrite Hs, Hcall.
    destruct Htail as [-> | ->]; cbn; now rewrite !app_nil_r.
  - intros t Hin.
    rewrite (stops_with_analysis env stream _ video canvas t Hv Hc).
    rewrite (proj1 (NoDup_count_occ' Nat.eq_dec stream) Hnd t Hin).
    cbn. unfold stops. rewrite !filter_app. cbn. now rewrite !app_nil_r.
Qed.

Lemma workflow_granted_witness :
  screenshot (ui (workflow
                    (browser legacy_only (Some sample_video)
                       (Some sample_canvas)) initialWorld))
    = Some sample_image
  /\ stops 1 (trace (workflow
                       (browser legacy_only (Some sample_video)
                          (Some sample_canvas)) initialWorld)) = 1.
Proof.
  assert (Hnd : NoDup [0; 1])
    by (repeat constructor; cbn; intuition discriminate).
  pose proof (workflow_granted
                (browser legacy_only (Some sample_video) (Some sample_canvas))
                initialWorld [0; 1] sample_video sample_canvas
                eq_refl eq_refl eq_refl eq_refl Hnd)
    as [Hs [_ [_ [_ [_ Hstop]]]]].
  split; [exact Hs|].
  exact (Hstop 1 (or_intror (or_introl eq_refl))).
Defined.

(** X14: a stream is granted and the video element or the canvas is missing:
    whatever the state before, no track is stopped, the remote model is
    not called, no screenshot is stored and the loading flag is left
    set. *)
Theorem workflow_missing_element (env : Env) (w : World)
    (stream : MediaStream) :
  acquired_stream (navigator env) = Some stream ->
  videoRef env = None \/ canvasRef env = None ->
  loading (ui (workflow env w)) = true
  /\ screenshot (ui (workflow env w)) = screenshot (ui w)
  /\ filter is_remote_call (trace (workflow env w))
     = filter is_remote_call (trace w)
  /\ forall t, stops t (trace (workflow env w)) = stops t (trace w).
Proof.
  intros Ha Hmiss. unfold workflow, loadedmetadata.
  rewrite (startCapture_granted_eq env w stream Ha). cbn zeta.
  destruct (videoRef env) as [video|] eqn:Hv.
  - cbn [metadataPending setOnloadedmetadata emit setSrcObject
         onloadedmetadata metadataReported].
    rewrite takeScreenshot_missing_ref
      by (destruct Hmiss; [congruence | now right]).
    cbn. unfold stops. repeat split; intros;
      rewrite !filter_app; cbn; now rewrite !app_nil_r.
  - cbn [metadataPending emit setLoading setError with_ui].
    destruct (metadataPending w).
    + cbn [onloadedmetadata metadataReported emit setLoading setError with_ui].
      destruct (onloadedmetadata w) as [old|].
      * rewrite takeScreenshot_missing_ref by (left; exact Hv).
        cbn. unfold stops. repeat split; intros;
          rewrite !filter_app; cbn; now rewrite !app_nil_r.
      * cbn. unfold stops. repeat split; intros;
          rewrite !filter_app; cbn; now rewrite !app_nil_r.
    + cbn. unfold stops. repeat split; intros;
        rewrite !filter_app; cbn; now rewrite !app_nil_r.
Qed.

Lemma workflow_missing_element_witness :
  loading (ui (workflow
                 (browser legacy_only (Some sample_video) None)
                 initialWorld)) = true
  /\ stops 1 (trace (workflow
                       (browser legacy_only (Some sample_video) None)
                       initialWorld)) = 0.
Proof.
  pose proof (workflow_missing_element
                (browser legacy_only (Some sample_video) None)
                initialWorld [0; 1] eq_refl (or_intror eq_refl))
    as [Hl [_ [_ Hstop]]].
  exact (conj Hl (Hstop 1)).
Defined.

(** ** Dismissal, again *)

(** X15: dismissing twice is dismissing once. After a dismissal the overlay
    and the card are unmounted and the pulse of the trigger shows exactly
    when nothing is loading; the toast is as before. If nothing is
    loading and no error is pending, the state is the initial one. *)
Theorem closeResult_idle (w : World) :
  closeResult (closeResult w) = closeResult w
  /\ overlayMounted (ui (closeResult w)) = false
  /\ cardMounted (ui (closeResult w)) = false
  /\ pulseMounted (ui (closeResult w)) = negb (loading (ui w))
  /\ toastMounted (ui (closeResult w)) = toastMounted (ui w)
  /\ (loading (ui w) = false -> error (ui w) = None ->
      ui (closeResult w) = initialState).
Proof.
  destruct w as [[sc sg ld er sh] h p tr]. cbn.
  repeat split; try (now destruct ld).
  intros -> ->. reflexivity.
Qed.

Lemma closeResult_idle_witness :
  ui (closeResult
        (workflow (browser window_picked (Some sample_video)
                     (Some sample_canvas)) initialWorld))
  = initialState.
Proof.
  exact (proj2 (proj2 (proj2 (proj2 (proj2
           (closeResult_idle
              (workflow (browser window_picked (Some sample_video)
                           (Some sample_canvas)) initialWorld))))))
           eq_refl eq_refl).
Defined.

(** ** Releasing the stream *)



